(** * ChatPlug discord-service: the bridging engine of [discord.go]

    A shallow embedding of [handleMessages], the search loop of [Startup],
    [discordMessageCreate] and [DownloadFile], with the Discord session, the
    hub client and [net/http] taken as an abstract platform.

    Go values are modelled as follows: a [string] or [[]byte] is a
    [String.string] (a sequence of bytes); a slice is a [list] (the nil slice
    is [[]]); a pointer that the code dereferences is an [option] and the
    dereference of [None] is a panic; an [error] is an [option] of its text;
    [int64] and [int] are [Z]. *)

From Stdlib Require Import String Ascii List ZArith Bool Lia.
Import ListNotations.
Open Scope string_scope.
Open Scope Z_scope.

(** ** Data of discordgo, of the hub client and of net/http *)

Definition error := string.

Record Webhook := mkWebhook {
  Webhook_ID : string;
  Webhook_Name : string;
  Webhook_Token : string
}.

Record Channel := mkChannel {
  Channel_ID : string;
  Channel_Name : string;
  Channel_Type : Z
}.

(** [discordgo.ChannelTypeGuildText] is the first constant of its [iota]
    block. *)
Definition ChannelTypeGuildText : Z := 0.

Record Guild := mkGuild {
  Guild_ID : string;
  Guild_Name : string;
  Guild_Icon : string
}.

Record User := mkUser {
  User_ID : string;
  User_Username : string;
  User_Avatar : string
}.

Record MessageAttachment := mkMessageAttachment {
  MessageAttachment_ID : string;
  MessageAttachment_URL : string
}.

(** [discordgo.MessageCreate]: the fields [discordMessageCreate] reads.  The
    gateway always fills [Author], so it is a record and not a pointer. *)
Record MessageCreate := mkMessageCreate {
  m_ID : string;
  m_ChannelID : string;
  m_Content : string;
  m_Author : User;
  m_WebhookID : string;
  m_Attachments : list MessageAttachment
}.

Record AttachmentInput := mkAttachmentInput {
  AttachmentInput_Type : string;
  AttachmentInput_OriginID : string;
  AttachmentInput_SourceURL : string
}.

Record SearchThreadInput := mkSearchThreadInput {
  SearchThreadInput_Name : string;
  SearchThreadInput_IconURL : string;
  SearchThreadInput_OriginID : string
}.

Record MessageAuthor := mkMessageAuthor {
  Author_Username : string;
  Author_AvatarURL : string
}.

Record Attachment := mkAttachment {
  Attachment_SourceURL : string
}.

Record Message := mkMessage {
  Message_Body : string;
  Message_Author : MessageAuthor;
  Message_Attachments : list Attachment
}.

(** One item of [ds.client.MessagesChan]. *)
Record MessagePayload := mkMessagePayload {
  TargetThreadID : string;
  msg_Message : Message
}.

Record WebhookPayload := mkWebhookPayload {
  Content : string;
  Username : string;
  AvatarURL : string
}.

(** A response body as [io.Copy] and [ioutil.ReadAll] see it: the bytes that
    can be read, then end of file or a read error. *)
Record Body := mkBody {
  Body_bytes : string;
  Body_err : option error
}.

Record Response := mkResponse {
  StatusCode : Z;
  ContentLength : Z;
  Resp_Body : Body
}.

(** What [http.Head], [http.Get] and [Client.Do] return.  With a nil error
    the response is never nil; with an error it is nil except when a redirect
    policy fails. *)
Inductive HttpResult :=
| HttpOk (resp : Response)
| HttpErr (resp : option Response) (err : error).

Definition http_err (r : HttpResult) : option error :=
  match r with HttpOk _ => None | HttpErr _ e => Some e end.

Definition http_resp (r : HttpResult) : option Response :=
  match r with HttpOk resp => Some resp | HttpErr resp _ => resp end.

(** One part of a [multipart.Writer] body: the form field name, the file name
    ([CreateFormField] gives none) and the bytes written to the part. *)
Record Part := mkPart {
  Part_name : string;
  Part_filename : option string;
  Part_data : string
}.

Record Request := mkRequest {
  Req_Method : string;
  Req_URL : string;
  Req_Parts : list Part
}.

(** ** Go library functions used by the code *)

(** [strings.HasPrefix s prefix]. *)
Definition HasPrefix (s prefix : string) : bool := String.prefix prefix s.

(** [strings.Contains s substr]: [substr] occurs in [s] at some position. *)
Fixpoint Contains (s substr : string) : bool :=
  if String.prefix substr s then true
  else match s with
       | EmptyString => false
       | String _ s' => Contains s' substr
       end.

Definition slash : ascii := "/"%char.

(** [path.Base]: trailing slashes are dropped, then everything up to the last
    slash; the empty path gives ["."] and a path of slashes gives ["/"]. *)
Fixpoint stripTrailingSlashes (p : string) : string :=
  match p with
  | EmptyString => EmptyString
  | String c p' =>
      match stripTrailingSlashes p' with
      | EmptyString => if Ascii.eqb c slash then EmptyString else String c EmptyString
      | r => String c r
      end
  end.

Fixpoint afterLastSlash (p acc : string) : string :=
  match p with
  | EmptyString => acc
  | String c p' =>
      if Ascii.eqb c slash then afterLastSlash p' p' else afterLastSlash p' acc
  end.

Definition path_Base (p : string) : string :=
  match p with
  | EmptyString => "."
  | _ =>
      let p1 := stripTrailingSlashes p in
      match afterLastSlash p1 p1 with
      | EmptyString => "/"
      | r => r
      end
  end.

(** [io.Copy dst body] into a sink that accepts every write: the bytes
    written and the error returned. *)
Definition io_Copy (b : Body) : string * option error :=
  (Body_bytes b, Body_err b).

(** [ioutil.ReadAll body]. *)
Definition ioutil_ReadAll (b : Body) : string * option error :=
  (Body_bytes b, Body_err b).

(** ** The platform: Discord, the hub and HTTP

    Listings and look-ups observe the world; creating a webhook and sending a
    request may change it.  [url_Parse] is the error of [url.Parse], if any. *)
Record Platform := mkPlatform {
  World : Type;
  ChannelWebhooks : World -> string -> list Webhook * option error;
  Channel_get : World -> string -> option Channel * option error;
  WebhookCreate :
    World -> string -> string -> string -> option Webhook * option error * World;
  Webhook_get : World -> string -> option Webhook * option error;
  State_User : World -> User;
  State_Guilds : World -> list Guild;
  GuildChannels : World -> string -> list Channel * option error;
  User_AvatarURL : User -> string -> string;
  http_Head : World -> string -> HttpResult;
  http_Get : World -> string -> HttpResult;
  Client_Do : World -> Request -> HttpResult * World;
  json_Marshal : WebhookPayload -> string;
  url_Parse : string -> option error
}.

(** [http.NewRequest method url body] with a valid method and a body: it
    fails exactly when [url.Parse] rejects the URL, and then returns a nil
    request with the error. *)
Definition http_NewRequest (P : Platform) (method url : string) (body : list Part)
  : option Request * option error :=
  match url_Parse P url with
  | Some err => (None, Some err)
  | None => (Some (mkRequest method url body), None)
  end.

(** Calls that leave the process, in the order they are made. *)
Inductive Call :=
| CallChannelWebhooks (channelID : string)
| CallChannel (channelID : string)
| CallWebhookCreate (channelID name avatar : string)
| CallWebhook (webhookID : string)
| CallGuildChannels (guildID : string)
| CallHead (url : string)
| CallGet (url : string)
| CallDo (req : Request)
| CallSendMessage (content id channelID username authorID avatarURL : string)
    (attachments : list AttachmentInput)
| CallSetSearchResponse (query : string) (results : list SearchThreadInput)
| CallPrintln (line : string)
| CallPrintlnBytes (data : string).

(** ** A monad for the world, the trace of calls and panics *)

Inductive Outcome (A : Type) :=
| Ret (a : A)
| Panic (reason : string).
Arguments Ret {A} a.
Arguments Panic {A} reason.

Definition M (W A : Type) : Type := W -> Outcome A * W * list Call.

Definition ret {W A} (a : A) : M W A := fun w => (Ret a, w, []).

Definition bind {W A B} (m : M W A) (f : A -> M W B) : M W B :=
  fun w =>
    match m w with
    | (Ret a, w1, t1) =>
        match f a w1 with
        | (r, w2, t2) => (r, w2, (t1 ++ t2)%list)
        end
    | (Panic s, w1, t1) => (Panic s, w1, t1)
    end.

Definition panic {W A} (s : string) : M W A := fun w => (Panic s, w, []).

(** An observation of the world, recorded in the trace. *)
Definition observe {W A} (c : Call) (f : W -> A) : M W A :=
  fun w => (Ret (f w), w, [c]).

(** A call that may change the world. *)
Definition act {W A} (c : Call) (f : W -> A * W) : M W A :=
  fun w => let (a, w') := f w in (Ret a, w', [c]).

(** A call whose result the code does not use. *)
Definition emit {W} (c : Call) : M W unit := fun w => (Ret tt, w, [c]).

(** A read of the session's local state: no call is made. *)
Definition gets {W A} (f : W -> A) : M W A := fun w => (Ret (f w), w, []).

Definition Println {W} (s : string) : M W unit := emit (CallPrintln s).

(** Dereference of a Go pointer. *)
Definition deref {W A} (p : option A) : M W A :=
  match p with
  | Some a => ret a
  | None => panic "invalid memory address or nil pointer dereference"
  end.

Notation "x <- c1 ;; c2" := (bind c1 (fun x => c2))
  (at level 61, c1 at next level, right associativity).
Notation "c1 ;;; c2" := (bind c1 (fun _ => c2))
  (at level 61, right associativity).

Definition printErr {W} (e : option error) : M W unit :=
  match e with Some s => Println s | None => ret tt end.

(** [for _, x := range xs] with a loop-carried value. *)
Fixpoint forRange {W A S} (xs : list A) (s : S) (body : S -> A -> M W S) : M W S :=
  match xs with
  | [] => ret s
  | x :: xs' => s' <- body s x ;; forRange xs' s' body
  end.

Definition trace_of {W A} (r : Outcome A * W * list Call) : list Call := snd r.
Definition world_of {W A} (r : Outcome A * W * list Call) : W := snd (fst r).
Definition outcome_of {W A} (r : Outcome A * W * list Call) : Outcome A := fst (fst r).

(** ** The code of discord.go *)

Section Bridge.
Variable P : Platform.
Abbreviation W := (World P).

(** [DownloadFile url dst]: [dst] is what the sink holds before the call; the
    result is what it holds after, with the returned error. *)
Definition DownloadFile (url : string) (dst : string) : M W (string * option error) :=
  let filename := path_Base url in
  head <- observe (CallHead url) (fun w => http_Head P w url) ;;
  match head with
  | HttpErr _ err => ret (dst, Some err)
  | HttpOk head =>
      if ContentLength head >? 8 * 1024 * 1024
      then ret (dst, Some ("File " ++ filename ++ " too big"))
      else
        resp <- observe (CallGet url) (fun w => http_Get P w url) ;;
        match resp with
        | HttpErr _ err => ret (dst, Some err)
        | HttpOk resp =>
            let (written, err) := io_Copy (Resp_Body resp) in
            ret (dst ++ written, err)
        end
  end.

(** *** [handleMessages], lines 38-53: the webhook of the target channel *)

Definition recognized (hook : Webhook) : bool :=
  HasPrefix (Webhook_Name hook) "ChatPlug ".

(** The loop of lines 43-48 over the listing; it has no [break]. *)
Definition selectWebhook (webhooks : list Webhook) : bool * option Webhook :=
  fold_left
    (fun (acc : bool * option Webhook) hook =>
       if HasPrefix (Webhook_Name hook) "ChatPlug " then (true, Some hook) else acc)
    webhooks (false, None).

Definition resolveWebhook (channelID : string) : M W (option Webhook) :=
  webhooks <- observe (CallChannelWebhooks channelID)
                (fun w => fst (ChannelWebhooks P w channelID)) ;;
  let (hasWebhook, webhook) := selectWebhook webhooks in
  if negb hasWebhook then
    channel <- observe (CallChannel channelID)
                 (fun w => fst (Channel_get P w channelID)) ;;
    channel <- deref channel ;;
    act (CallWebhookCreate channelID ("ChatPlug " ++ Channel_Name channel)
           "https://i.imgur.com/l2QP9Go.png")
        (fun w =>
           match WebhookCreate P w channelID ("ChatPlug " ++ Channel_Name channel)
                   "https://i.imgur.com/l2QP9Go.png" with
           | (hook, _, w') => (hook, w')
           end)
  else ret webhook.

Definition webhookURL (webhook : Webhook) : string :=
  "https://discordapp.com/api/webhooks/" ++ Webhook_ID webhook ++ "/"
    ++ Webhook_Token webhook.

(** *** [handleMessages], lines 80-92: one file part per attachment

    [CreateFormFile] opens the part in the body before [DownloadFile] runs;
    the download then writes into that part.  Writes go to a [bytes.Buffer],
    so [CreateFormField], [CreateFormFile] and [Write] return no error. *)
Definition attachmentPart (parts : list Part) (attachment : Attachment)
  : M W (list Part) :=
  let filename := path_Base (Attachment_SourceURL attachment) in
  let fileWriter := mkPart filename (Some filename) "" in
  r <- DownloadFile (Attachment_SourceURL attachment) (Part_data fileWriter) ;;
  let (data, err) := r in
  printErr err ;;;
  ret (parts ++ [mkPart filename (Some filename) data])%list.

(** *** [handleMessages], lines 55-120: the upload through a webhook

    [json.Marshal] of a struct of strings returns no error.  The request is
    the method, the URL and the parts of the body; when [http.NewRequest]
    returns an error the code prints it and goes on to line 103, which sets
    a header through the nil request. *)

Definition postMessage (webhook : Webhook) (msg : MessagePayload) : M W unit :=
  let url := webhookURL webhook in
  let payload := json_Marshal P
    {| Username := Author_Username (Message_Author (msg_Message msg));
       AvatarURL := Author_AvatarURL (Message_Author (msg_Message msg));
       Content := Message_Body (msg_Message msg) |} in
  Println "Sending a message to the webhook" ;;;
  let body := [mkPart "payload_json" None payload] in
  Println "Wrote JSON payload" ;;;
  body <- forRange (Message_Attachments (msg_Message msg)) body attachmentPart ;;
  Println "Wrote attachments" ;;;
  let (req, err) := http_NewRequest P "POST" url body in
  printErr err ;;;
  req <- deref req ;;
  Println "Sending the request" ;;;
  r <- act (CallDo req) (fun w => Client_Do P w req) ;;
  printErr (http_err r) ;;;
  Println "Got response" ;;;
  response <- deref (http_resp r) ;;
  if negb (StatusCode response =? 204) && negb (StatusCode response =? 200) then
    let (data, err) := ioutil_ReadAll (Resp_Body response) in
    printErr err ;;;
    emit (CallPrintlnBytes data)
  else ret tt.

(** *** [handleMessages], the body of the loop for one message

    Line 55 reads [webhook.ID] and [webhook.Token] through the pointer. *)
Definition handleMessage (msg : MessagePayload) : M W unit :=
  webhook <- resolveWebhook (TargetThreadID msg) ;;
  webhook <- deref webhook ;;
  postMessage webhook msg.

(** [handleMessages] on the messages [MessagesChan] delivers. *)
Definition handleMessages (msgs : list MessagePayload) : M W unit :=
  forRange msgs tt (fun _ msg => handleMessage msg).

(** *** [Startup], lines 153-168: the search loop *)

Definition searchStep (query : string) (guild : Guild)
    (threadResults : list SearchThreadInput) (channel : Channel)
  : list SearchThreadInput :=
  if (length threadResults <? 30)%nat
     && (Contains (Channel_Name channel) query || Contains (Guild_Name guild) query)
     && (Channel_Type channel =? ChannelTypeGuildText)
  then (threadResults ++
        [ {| SearchThreadInput_Name := Guild_Name guild ++ " - " ++ Channel_Name channel;
             SearchThreadInput_IconURL :=
               "http://cdn.discordapp.com/icons/" ++ Guild_ID guild ++ "/"
                 ++ Guild_Icon guild ++ ".png";
             SearchThreadInput_OriginID := Channel_ID channel |} ])%list
  else threadResults.

Definition Startup_searchRequest (query : string) : M W unit :=
  guilds <- gets (State_Guilds P) ;;
  threadResults <-
    forRange guilds []
      (fun threadResults guild =>
         channels <- observe (CallGuildChannels (Guild_ID guild))
                       (fun w => fst (GuildChannels P w (Guild_ID guild))) ;;
         ret (fold_left (searchStep query guild) channels threadResults)) ;;
  emit (CallSetSearchResponse query threadResults).

Definition Startup_searchLoop (queries : list string) : M W unit :=
  forRange queries tt (fun _ query => Startup_searchRequest query).

(** *** [discordMessageCreate] *)

Definition discordMessageCreate (m : MessageCreate) : M W unit :=
  self <- gets (State_User P) ;;
  if String.eqb (User_ID (m_Author m)) (User_ID self) then ret tt
  else
    r <- observe (CallWebhook (m_WebhookID m))
           (fun w => Webhook_get P w (m_WebhookID m)) ;;
    let (webhook, err) := r in
    if match err, webhook with
       | None, Some webhook => HasPrefix (Webhook_Name webhook) "ChatPlug "
       | _, _ => false
       end
    then ret tt
    else
      let attachments :=
        fold_left
          (fun attachments discordAttachment =>
             attachments ++
             [ {| AttachmentInput_Type := "IMAGE";
                  AttachmentInput_OriginID := MessageAttachment_ID discordAttachment;
                  AttachmentInput_SourceURL := MessageAttachment_URL discordAttachment |} ])%list
          (m_Attachments m) [] in
      emit (CallSendMessage (m_Content m) (m_ID m) (m_ChannelID m)
              (User_Username (m_Author m)) (User_ID (m_Author m))
              (User_AvatarURL P (m_Author m) "medium") attachments).

End Bridge.

(** ** Reading a trace *)

Definition isGet (c : Call) : bool :=
  match c with CallGet _ => true | _ => false end.

Definition isCreate (c : Call) : bool :=
  match c with CallWebhookCreate _ _ _ => true | _ => false end.

Definition isDo (c : Call) : bool :=
  match c with CallDo _ => true | _ => false end.

Definition isSendMessage (c : Call) : bool :=
  match c with CallSendMessage _ _ _ _ _ _ _ => true | _ => false end.

(** [DownloadFile] refused the source: it returned an error, left the sink
    as it was and made no GET request. *)
Definition refused {W} (dst : string)
    (r : Outcome (string * option error) * W * list Call) : Prop :=
  (exists e, outcome_of r = Ret (dst, Some e)) /\
  filter isGet (trace_of r) = [].

(** A call that neither creates a webhook nor sends a request. *)
Definition quietCall (c : Call) : bool := negb (isCreate c) && negb (isDo c).

(** What [DownloadFile] writes into an empty part, with its error. *)
Definition downloaded (P : Platform) (w : World P) (url : string)
  : string * option error :=
  match outcome_of (DownloadFile P url "" w) with
  | Ret r => r
  | Panic _ => ("", None)
  end.

Definition attachmentParts (P : Platform) (w : World P) (attachments : list Attachment)
  : list Part :=
  map (fun a =>
         let filename := path_Base (Attachment_SourceURL a) in
         mkPart filename (Some filename) (fst (downloaded P w (Attachment_SourceURL a))))
      attachments.

(** The request [handleMessages] builds for a message and a webhook. *)
Definition uploadRequest (P : Platform) (w : World P) (webhook : Webhook)
    (msg : MessagePayload) : Request :=
  mkRequest "POST" (webhookURL webhook)
    (mkPart "payload_json" None
       (json_Marshal P
          {| Username := Author_Username (Message_Author (msg_Message msg));
             AvatarURL := Author_AvatarURL (Message_Author (msg_Message msg));
             Content := Message_Body (msg_Message msg) |})
     :: attachmentParts P w (Message_Attachments (msg_Message msg))).

(** The first recognised webhook of a listing, and the last one. *)
Definition firstRecognized (webhooks : list Webhook) : option Webhook :=
  find recognized webhooks.

Definition lastRecognized (webhooks : list Webhook) : option Webhook :=
  find recognized (rev webhooks).

(** The channels a query selects, guild by guild and channel by channel, as
    the search responder is specified: text channels whose name, or whose
    guild's name, contains the query. *)
Definition searchMatches (query : string) (guild : Guild) (channel : Channel) : bool :=
  (Contains (Channel_Name channel) query || Contains (Guild_Name guild) query)
  && (Channel_Type channel =? ChannelTypeGuildText).

Definition searchResult (guild : Guild) (channel : Channel) : SearchThreadInput :=
  {| SearchThreadInput_Name := Guild_Name guild ++ " - " ++ Channel_Name channel;
     SearchThreadInput_IconURL :=
       "http://cdn.discordapp.com/icons/" ++ Guild_ID guild ++ "/"
         ++ Guild_Icon guild ++ ".png";
     SearchThreadInput_OriginID := Channel_ID channel |}.

Definition searchCandidates (P : Platform) (w : World P) (query : string)
  : list SearchThreadInput :=
  flat_map
    (fun guild =>
       map (searchResult guild)
         (filter (searchMatches query guild)
            (fst (GuildChannels P w (Guild_ID guild)))))
    (State_Guilds P w).

(** ** A small platform to run the code on

    Webhooks are kept per channel in listing order; a creation, when the
    platform allows it, appends the new webhook under the requested name. *)

Module Sim.

Record State := mkState {
  hooks : list (string * Webhook);
  channels : list Channel;
  guilds : list (Guild * list Channel);
  self : User;
  createAllowed : bool;
  files : list (string * Response);
  uploadResult : HttpResult
}.

Definition hooksOf (s : State) (channelID : string) : list Webhook :=
  map snd (filter (fun p => String.eqb (fst p) channelID) (hooks s)).

Definition channelOf (s : State) (channelID : string) : option Channel * option error :=
  match find (fun c => String.eqb (Channel_ID c) channelID) (channels s) with
  | Some c => (Some c, None)
  | None => (None, Some "HTTP 404 Not Found")
  end.

Definition create (s : State) (channelID name avatar : string)
  : option Webhook * option error * State :=
  if createAllowed s then
    let hook := mkWebhook ("hook-" ++ channelID) name "secret" in
    (Some hook, None,
     {| hooks := (hooks s ++ [(channelID, hook)])%list;
        channels := channels s; guilds := guilds s; self := self s;
        createAllowed := createAllowed s; files := files s;
        uploadResult := uploadResult s |})
  else (None, Some "HTTP 403 Forbidden", s).

Definition hookByID (s : State) (webhookID : string) : option Webhook * option error :=
  match find (fun p => String.eqb (Webhook_ID (snd p)) webhookID) (hooks s) with
  | Some p => (Some (snd p), None)
  | None => (None, Some "HTTP 404 Not Found")
  end.

Definition channelsOf (s : State) (guildID : string) : list Channel * option error :=
  match find (fun p => String.eqb (Guild_ID (fst p)) guildID) (guilds s) with
  | Some p => (snd p, None)
  | None => ([], Some "HTTP 404 Not Found")
  end.

Definition fetch (s : State) (url : string) : HttpResult :=
  match find (fun p => String.eqb (fst p) url) (files s) with
  | Some p => HttpOk (snd p)
  | None => HttpErr None "no such host"
  end.

(** A stand-in for [url.Parse]: it rejects the escape [%zz]. *)
Definition parse (url : string) : option error :=
  if Contains url "%zz" then Some ("parse " ++ url ++ ": invalid URL escape %zz")
  else None.

(** A stand-in for [json.Marshal], without quoting. *)
Definition marshal (p : WebhookPayload) : string :=
  "{content:" ++ Content p ++ ",username:" ++ Username p
    ++ ",avatar_url:" ++ AvatarURL p ++ "}".

Definition platform : Platform :=
  {| World := State;
     ChannelWebhooks := fun s channelID => (hooksOf s channelID, None);
     Channel_get := channelOf;
     WebhookCreate := create;
     Webhook_get := hookByID;
     State_User := self;
     State_Guilds := fun s => map fst (guilds s);
     GuildChannels := channelsOf;
     User_AvatarURL := fun u size =>
       "https://cdn.discordapp.com/avatars/" ++ User_ID u ++ "/" ++ User_Avatar u
         ++ ".png?size=" ++ size;
     http_Head := fetch;
     http_Get := fetch;
     Client_Do := fun s _ => (uploadResult s, s);
     json_Marshal := marshal;
     url_Parse := parse |}.

Definition bot : User := mkUser "900" "bridge" "a1".
Definition alice : User := mkUser "17" "alice" "b2".

Definition general : Channel := mkChannel "123" "general-chat" ChannelTypeGuildText.
Definition voice : Channel := mkChannel "124" "general-voice" 2.
Definition testGuild : Guild := mkGuild "1" "Test Guild" "ic".

Definition hookA : Webhook := mkWebhook "501" "ChatPlug general-chat" "tokA".
Definition hookB : Webhook := mkWebhook "502" "ChatPlug old" "tokB".
Definition hookOther : Webhook := mkWebhook "503" "Deploy bot" "tokC".

Definition noContent : Response := mkResponse 204 0 (mkBody "" None).

Definition small : Response := mkResponse 200 5 (mkBody "hello" None).
Definition almostFull : Response :=
  mkResponse 200 (8 * 1024 * 1024 - 1) (mkBody "hello" None).
Definition huge : Response := mkResponse 200 (8 * 1024 * 1024 + 1) (mkBody "big" None).

Definition base : State :=
  {| hooks := [("123", hookOther)];
     channels := [general; voice];
     guilds := [(testGuild, [general; voice])];
     self := bot;
     createAllowed := true;
     files := [("http://cdn.example/a/cat.png", small);
               ("http://cdn.example/a/edge.bin", almostFull);
               ("http://cdn.example/a/movie.mp4", huge)];
     uploadResult := HttpOk noContent |}.

Definition withHooks (s : State) (hs : list (string * Webhook)) : State :=
  {| hooks := hs; channels := channels s; guilds := guilds s; self := self s;
     createAllowed := createAllowed s; files := files s;
     uploadResult := uploadResult s |}.

Definition withCreate (s : State) (b : bool) : State :=
  {| hooks := hooks s; channels := channels s; guilds := guilds s; self := self s;
     createAllowed := b; files := files s; uploadResult := uploadResult s |}.

Definition withUpload (s : State) (r : HttpResult) : State :=
  {| hooks := hooks s; channels := channels s; guilds := guilds s; self := self s;
     createAllowed := createAllowed s; files := files s; uploadResult := r |}.

Definition twoBridgeHooks : State :=
  withHooks base [("123", hookA); ("123", hookOther); ("123", hookB)].

Definition oneBridgeHook : State :=
  withHooks base [("123", hookOther); ("123", hookA)].

Definition missing : Attachment := mkAttachment "http://cdn.example/a/missing.png".
Definition cat : Attachment := mkAttachment "http://cdn.example/a/cat.png".

Definition hubMessage (body : string) (attachments : list Attachment) : MessagePayload :=
  {| TargetThreadID := "123";
     msg_Message :=
       {| Message_Body := body;
          Message_Author := mkMessageAuthor "carol" "http://hub.example/carol.png";
          Message_Attachments := attachments |} |}.

End Sim.

(** ** Configuration and start-up

    The fields of the hub client's configuration exchange, the record kept
    on disk, and the host the process runs on: its environment, its files
    and the JSON coding of the configuration record. *)

Record ConfigurationField := mkConfigurationField {
  Field_Type : string;
  Field_Name : string;
  Field_Hint : string;
  Field_DefaultValue : string;
  Field_Optional : bool;
  Field_Mask : bool
}.

Record ConfigurationFieldResult := mkConfigurationFieldResult {
  Result_Name : string;
  Result_Value : string
}.

Record DiscordServiceConfiguration := mkDiscordServiceConfiguration {
  BotToken : string
}.

(** [os.Stat] gives its error only; [ioutil.ReadFile] gives the bytes or an
    error; [ioutil.WriteFile] gives its error and the disk after the call;
    [json.Unmarshal] fills a zero [DiscordServiceConfiguration]. *)
Record Host := mkHost {
  Disk : Type;
  os_Getenv : string -> string;
  os_Stat : Disk -> string -> option error;
  os_IsNotExist : error -> bool;
  ioutil_ReadFile : Disk -> string -> string + error;
  ioutil_WriteFile : Disk -> string -> string -> option error * Disk;
  json_MarshalIndent : DiscordServiceConfiguration -> string;
  json_Unmarshal : string -> DiscordServiceConfiguration + error
}.

(** What [Startup] does before its loops, in order. *)
Inductive StartupCall :=
| CallNewChatPlugClient (wsEndpoint httpEndpoint accessToken : string)
| CallConnect
| CallSubscribeToNewMessages
| CallSubscribeToConfigResponses (schema : list ConfigurationField)
| CallReceiveConfiguration
| CallFatal (err : error)
| CallDiscordNew (token : string)
| CallAddHandler
| CallOpen
| CallSubscribeToSearchRequests.

(** [Startup] either leaves through [log.Fatal] or reaches its loops with a
    session opened under a token. *)
Inductive StartupResult :=
| Exited (err : error)
| Serving (token : string).

Section Configuration.
Variable H : Host.

Definition GetConfigurationSchema : list ConfigurationField :=
  let conf := [] in
  let ques1 :=
    {| Field_Type := "STRING";
       Field_Name := "botToken";
       Field_Hint := "Your Discord bot token";
       Field_DefaultValue := "";
       Field_Optional := false;
       Field_Mask := true |} in
  (conf ++ [ques1])%list.

Definition configPath : string :=
  "config." ++ os_Getenv H "INSTANCE_ID" ++ ".json".

Definition GetConfiguration (d : Disk H) : DiscordServiceConfiguration + error :=
  match ioutil_ReadFile H d configPath with
  | inr err => inr err
  | inl file =>
      match json_Unmarshal H file with
      | inr err => inr err
      | inl data => inl data
      end
  end.

(** [SaveConfiguration], lines 240-246: the loop over the submitted fields. *)
Definition SaveConfiguration_confStruct (conf : list ConfigurationFieldResult)
  : DiscordServiceConfiguration :=
  fold_left
    (fun confStruct field =>
       if String.eqb (Result_Name field) "botToken"
       then {| BotToken := Result_Value field |}
       else confStruct)
    conf {| BotToken := "" |}.

(** [SaveConfiguration]: the disk after the call; the error of
    [ioutil.WriteFile] is dropped. *)
Definition SaveConfiguration (conf : list ConfigurationFieldResult) (d : Disk H)
  : Disk H :=
  let confStruct := SaveConfiguration_confStruct conf in
  let file := json_MarshalIndent H confStruct in
  snd (ioutil_WriteFile H d configPath file).

Definition IsConfigured (d : Disk H) : bool :=
  match os_Stat H d configPath with
  | Some err => if os_IsNotExist H err then false else true
  | None => true
  end.

(** [Startup], lines 125-147, up to the point where the two loops start.
    [received] is the [FieldValues] of the message that
    [ConfigurationRecvChan] delivers when the code waits for it.
    [discordgo.New] with a token string returns no error. *)
Definition Startup_boot (received : list ConfigurationFieldResult) (d : Disk H)
  : StartupResult * Disk H * list StartupCall :=
  let t0 :=
    [CallNewChatPlugClient (os_Getenv H "WS_ENDPOINT") (os_Getenv H "HTTP_ENDPOINT")
       (os_Getenv H "ACCESS_TOKEN");
     CallConnect; CallSubscribeToNewMessages] in
  let (d1, t1) :=
    if negb (IsConfigured d)
    then (SaveConfiguration received d,
          [CallSubscribeToConfigResponses GetConfigurationSchema;
           CallReceiveConfiguration])
    else (d, []) in
  match GetConfiguration d1 with
  | inr err => (Exited err, d1, (t0 ++ t1 ++ [CallFatal err])%list)
  | inl serviceConfiguration =>
      (Serving ("Bot " ++ BotToken serviceConfiguration), d1,
       (t0 ++ t1 ++
        [CallDiscordNew ("Bot " ++ BotToken serviceConfiguration);
         CallAddHandler; CallOpen; CallSubscribeToSearchRequests])%list)
  end.

End Configuration.

(** The value [SaveConfiguration] keeps: that of the last submitted field
    named [botToken], the empty string when there is none. *)
Definition lastBotToken (conf : list ConfigurationFieldResult) : string :=
  match find (fun field => String.eqb (Result_Name field) "botToken") (rev conf) with
  | Some field => Result_Value field
  | None => ""
  end.

(** ** More ways to read a trace *)

Definition isHead (c : Call) : bool :=
  match c with CallHead _ => true | _ => false end.

Definition isPrintlnBytes (c : Call) : bool :=
  match c with CallPrintlnBytes _ => true | _ => false end.

Definition isSetSearchResponse (c : Call) : bool :=
  match c with CallSetSearchResponse _ _ => true | _ => false end.

(** The calls a download makes: the two requests and the printed error. *)
Definition fetchCall (c : Call) : bool :=
  match c with
  | CallHead _ | CallGet _ | CallPrintln _ => true
  | _ => false
  end.

Definition isTextChannel (channel : Channel) : bool :=
  Channel_Type channel =? ChannelTypeGuildText.

(** The attachments of a Discord message as the hub receives them. *)
Definition hubAttachments (attachments : list MessageAttachment) : list AttachmentInput :=
  map (fun a =>
         {| AttachmentInput_Type := "IMAGE";
            AttachmentInput_OriginID := MessageAttachment_ID a;
            AttachmentInput_SourceURL := MessageAttachment_URL a |})
      attachments.

(** The event is one the handler drops: its author is the bridge's own
    account, or its webhook resolves without error to a webhook named with
    the prefix. *)
Definition suppressed (P : Platform) (w : World P) (m : MessageCreate) : Prop :=
  User_ID (m_Author m) = User_ID (State_User P w) \/
  exists hook,
    Webhook_get P w (m_WebhookID m) = (Some hook, None) /\
    HasPrefix (Webhook_Name hook) "ChatPlug " = true.

(** ** A small host and more platform states to run the code on *)

Module SimHost.

Record State := mkState {
  entries : list (string * string);
  readOnly : bool;
  denied : bool
}.

Definition lookup (s : State) (path : string) : option string :=
  match find (fun e => String.eqb (fst e) path) (entries s) with
  | Some e => Some (snd e)
  | None => None
  end.

Definition notExist : error := "no such file or directory".

Definition stat (s : State) (path : string) : option error :=
  if denied s then Some "permission denied"
  else match lookup s path with
       | Some _ => None
       | None => Some notExist
       end.

Definition read (s : State) (path : string) : string + error :=
  if denied s then inr "permission denied"
  else match lookup s path with
       | Some data => inl data
       | None => inr notExist
       end.

Definition write (s : State) (path data : string) : option error * State :=
  if denied s then (Some "permission denied", s)
  else if readOnly s then (Some "read-only file system", s)
  else (None,
        {| entries := (path, data) :: entries s;
           readOnly := readOnly s; denied := denied s |}).

(** A stand-in for the JSON coding of the record. *)
Definition marshal (c : DiscordServiceConfiguration) : string :=
  "botToken=" ++ BotToken c.

Definition unmarshal (file : string) : DiscordServiceConfiguration + error :=
  if String.prefix "botToken=" file
  then inl {| BotToken := String.substring 9 (String.length file - 9) file |}
  else inr "invalid character".

Definition getenv (name : string) : string :=
  if String.eqb name "INSTANCE_ID" then "i1"
  else if String.eqb name "WS_ENDPOINT" then "ws://hub.example/query"
  else if String.eqb name "HTTP_ENDPOINT" then "http://hub.example/query"
  else if String.eqb name "ACCESS_TOKEN" then "hub-secret"
  else "".

Definition host : Host :=
  {| Disk := State;
     os_Getenv := getenv;
     os_Stat := stat;
     os_IsNotExist := fun err => String.eqb err notExist;
     ioutil_ReadFile := read;
     ioutil_WriteFile := write;
     json_MarshalIndent := marshal;
     json_Unmarshal := unmarshal |}.

Definition fresh : State := mkState [] false false.
Definition frozen : State := mkState [] true false.
Definition locked : State := mkState [("config.i1.json", "botToken=abc")] false true.
Definition configured : State := mkState [("config.i1.json", "botToken=abc")] false false.

Definition answers : list ConfigurationFieldResult :=
  [mkConfigurationFieldResult "botToken" "old";
   mkConfigurationFieldResult "colour" "blue";
   mkConfigurationFieldResult "botToken" "xyz"].

End SimHost.

Module Cases.

(** A source that declares three bytes and serves eleven. *)
Definition understated : Response := mkResponse 200 3 (mkBody "hello world" None).

(** A source whose probe succeeds and whose download breaks off. *)
Definition broken : Response := mkResponse 200 5 (mkBody "he" (Some "unexpected EOF")).

Definition withFiles (s : Sim.State) (fs : list (string * Response)) : Sim.State :=
  {| Sim.hooks := Sim.hooks s; Sim.channels := Sim.channels s;
     Sim.guilds := Sim.guilds s; Sim.self := Sim.self s;
     Sim.createAllowed := Sim.createAllowed s; Sim.files := fs;
     Sim.uploadResult := Sim.uploadResult s |}.

Definition oddFiles : Sim.State :=
  withFiles Sim.oneBridgeHook
    [("http://cdn.example/a/short.txt", understated);
     ("http://cdn.example/a/cut.bin", broken)].

Definition serverError : Response := mkResponse 500 4 (mkBody "oops" None).

Definition failingUpload : Sim.State :=
  Sim.withUpload Sim.oneBridgeHook (HttpOk serverError).

(** A platform that lists no webhook for channel 123 and cannot return the
    channel. *)
Definition unknownChannel : Sim.State :=
  {| Sim.hooks := []; Sim.channels := [];
     Sim.guilds := Sim.guilds Sim.base; Sim.self := Sim.self Sim.base;
     Sim.createAllowed := true; Sim.files := Sim.files Sim.base;
     Sim.uploadResult := Sim.uploadResult Sim.base |}.

(** A platform that hands out a webhook whose token does not parse in a
    URL. *)
Definition hookBad : Webhook := mkWebhook "504" "ChatPlug general-chat" "tok%zz".

Definition badToken : Sim.State := Sim.withHooks Sim.base [("123", hookBad)].

Definition dave : User := mkUser "18" "dave" "c3".

Definition plainEvent : MessageCreate :=
  mkMessageCreate "m7" "123" "look" dave ""
    [mkMessageAttachment "a1" "http://cdn.example/a/cat.png";
     mkMessageAttachment "a2" "http://cdn.example/a/dog.png"].

End Cases.

(** * Properties *)

(** ** The attachment fetcher *)

Section Fetcher.
Variable P : Platform.

Lemma DownloadFile_probe_ok (w : World P) url dst head :
  http_Head P w url = HttpOk head ->
  DownloadFile P url dst w =
    if ContentLength head >? 8 * 1024 * 1024
    then (Ret (dst, Some ("File " ++ path_Base url ++ " too big")), w, [CallHead url])
    else match http_Get P w url with
         | HttpErr _ err => (Ret (dst, Some err), w, [CallHead url; CallGet url])
         | HttpOk resp =>
             (Ret (dst ++ Body_bytes (Resp_Body resp), Body_err (Resp_Body resp)), w,
              [CallHead url; CallGet url])
         end.
Proof.
  intros Hhead. unfold DownloadFile, bind, observe. rewrite Hhead.
  destruct (ContentLength head >? 8 * 1024 * 1024); [reflexivity|].
  destruct (http_Get P w url); reflexivity.
Qed.

Lemma DownloadFile_probe_err (w : World P) url dst resp err :
  http_Head P w url = HttpErr resp err ->
  DownloadFile P url dst w = (Ret (dst, Some err), w, [CallHead url]).
Proof.
  intros Hhead. unfold DownloadFile, bind, observe. rewrite Hhead. reflexivity.
Qed.

(** [DownloadFile] always returns, leaves the world as it is, and only makes
    HEAD and GET requests. *)
Lemma DownloadFile_returns (w : World P) url dst :
  exists data err t,
    DownloadFile P url dst w = (Ret (data, err), w, t) /\
    forallb (fun c => negb (isCreate c) && negb (isDo c)) t = true.
Proof.
  destruct (http_Head P w url) as [head | resp err] eqn:Hhead.
  - rewrite (DownloadFile_probe_ok _ _ _ _ Hhead).
    destruct (ContentLength head >? 8 * 1024 * 1024).
    + eexists _, _, _. split; reflexivity.
    + destruct (http_Get P w url); eexists _, _, _; split; reflexivity.
  - rewrite (DownloadFile_probe_err _ _ _ _ _ Hhead).
    eexists _, _, _. split; reflexivity.
Qed.

(** C4. When the HEAD probe and the GET both succeed, [DownloadFile] refuses
    the source (an error, nothing written to the sink, no GET made) exactly
    when the declared content length is above 8 MiB; a source declaring
    8 MiB minus one byte is not refused. *)
Theorem DownloadFile_size_ceiling (w : World P) url dst head resp :
  http_Head P w url = HttpOk head ->
  http_Get P w url = HttpOk resp ->
  (refused dst (DownloadFile P url dst w) <-> ContentLength head > 8 * 1024 * 1024) /\
  (ContentLength head = 8 * 1024 * 1024 - 1 -> ~ refused dst (DownloadFile P url dst w)).
Proof.
  intros Hhead Hget.
  assert (Hiff : refused dst (DownloadFile P url dst w)
                 <-> ContentLength head > 8 * 1024 * 1024).
  { rewrite (DownloadFile_probe_ok _ _ _ _ Hhead), Hget. unfold refused.
    destruct (ContentLength head >? 8 * 1024 * 1024) eqn:Hsize.
    - apply Z.gtb_lt in Hsize. split; [lia|].
      intros _. split; [eexists; reflexivity | reflexivity].
    - split.
      + intros [_ Hnoget]. discriminate Hnoget.
      + intros Hgt. apply Z.gt_lt, Z.gtb_lt in Hgt. congruence. }
  split; [exact Hiff|].
  intros Hlen Href. apply Hiff in Href. lia.
Qed.

End Fetcher.

Lemma DownloadFile_size_ceiling_witness :
  ~ refused "" (DownloadFile Sim.platform "http://cdn.example/a/edge.bin" "" Sim.base).
Proof.
  apply (proj2 (DownloadFile_size_ceiling Sim.platform Sim.base
                  "http://cdn.example/a/edge.bin" "" Sim.almostFull Sim.almostFull
                  eq_refl eq_refl)).
  reflexivity.
Defined.

(** ** The inbound relay *)

Section Inbound.
Variable P : Platform.

(** C9. An event whose author is the bridge's own account is not forwarded:
    the handler returns without any [SendMessage]. *)
Theorem self_authored_not_forwarded (w : World P) (m : MessageCreate) :
  User_ID (m_Author m) = User_ID (State_User P w) ->
  outcome_of (discordMessageCreate P m w) = Ret tt /\
  filter isSendMessage (trace_of (discordMessageCreate P m w)) = [].
Proof.
  intros Hself. unfold discordMessageCreate, bind, gets.
  rewrite Hself, String.eqb_refl. split; reflexivity.
Qed.

(** C1. An event whose webhook reference resolves, without error, to a
    webhook named with the prefix "ChatPlug " is not forwarded: the handler
    returns without any [SendMessage]. *)
Theorem bridge_webhook_not_forwarded (w : World P) (m : MessageCreate) (hook : Webhook) :
  Webhook_get P w (m_WebhookID m) = (Some hook, None) ->
  HasPrefix (Webhook_Name hook) "ChatPlug " = true ->
  outcome_of (discordMessageCreate P m w) = Ret tt /\
  filter isSendMessage (trace_of (discordMessageCreate P m w)) = [].
Proof.
  intros Hget Hname. unfold discordMessageCreate, bind, gets, observe.
  destruct (String.eqb (User_ID (m_Author m)) (User_ID (State_User P w))).
  - split; reflexivity.
  - rewrite Hget, Hname. split; reflexivity.
Qed.

(** Every other event is forwarded once. *)
Lemma other_event_forwarded (w : World P) (m : MessageCreate) :
  User_ID (m_Author m) <> User_ID (State_User P w) ->
  (forall hook, Webhook_get P w (m_WebhookID m) = (Some hook, None) ->
                HasPrefix (Webhook_Name hook) "ChatPlug " = false) ->
  length (filter isSendMessage (trace_of (discordMessageCreate P m w))) = 1%nat.
Proof.
  intros Hself Hhook. unfold discordMessageCreate, bind, gets, observe.
  apply String.eqb_neq in Hself. rewrite Hself.
  destruct (Webhook_get P w (m_WebhookID m)) as [[hook|] [err|]] eqn:Hget;
    try reflexivity.
  rewrite (Hhook hook eq_refl). reflexivity.
Qed.

End Inbound.

Lemma self_authored_not_forwarded_witness :
  filter isSendMessage
    (trace_of (discordMessageCreate Sim.platform
                 (mkMessageCreate "m1" "123" "hello" Sim.bot "" []) Sim.base)) = [].
Proof.
  apply (self_authored_not_forwarded Sim.platform Sim.base
           (mkMessageCreate "m1" "123" "hello" Sim.bot "" [])).
  reflexivity.
Defined.

Lemma bridge_webhook_not_forwarded_witness :
  filter isSendMessage
    (trace_of (discordMessageCreate Sim.platform
                 (mkMessageCreate "m2" "123" "relayed" Sim.alice "501" [])
                 (Sim.withHooks Sim.base [("123", Sim.hookA)]))) = [].
Proof.
  apply (bridge_webhook_not_forwarded Sim.platform
           (Sim.withHooks Sim.base [("123", Sim.hookA)])
           (mkMessageCreate "m2" "123" "relayed" Sim.alice "501" []) Sim.hookA).
  - reflexivity.
  - reflexivity.
Defined.

(** ** The webhook resolver *)

Lemma lastRecognized_snoc (hooks : list Webhook) (hook : Webhook) :
  lastRecognized (hooks ++ [hook]) =
    if recognized hook then Some hook else lastRecognized hooks.
Proof.
  unfold lastRecognized. rewrite rev_app_distr. reflexivity.
Qed.

Lemma selectWebhook_last (hooks : list Webhook) :
  selectWebhook hooks =
    match lastRecognized hooks with
    | Some hook => (true, Some hook)
    | None => (false, None)
    end.
Proof.
  unfold selectWebhook.
  induction hooks as [|hook hooks IH] using rev_ind.
  - reflexivity.
  - rewrite fold_left_app, lastRecognized_snoc. cbn [fold_left].
    change (HasPrefix (Webhook_Name hook) "ChatPlug ") with (recognized hook).
    destruct (recognized hook); [reflexivity | exact IH].
Qed.

Lemma lastRecognized_In (hooks : list Webhook) (hook : Webhook) :
  lastRecognized hooks = Some hook -> In hook hooks /\ recognized hook = true.
Proof.
  unfold lastRecognized. intros Hfind. apply find_some in Hfind.
  destruct Hfind as [Hin Hrec]. split; [apply in_rev; exact Hin | exact Hrec].
Qed.

Lemma lastRecognized_exists (hooks : list Webhook) :
  existsb recognized hooks = true -> exists hook, lastRecognized hooks = Some hook.
Proof.
  intros Hex. apply existsb_exists in Hex. destruct Hex as [h [Hin Hrec]].
  unfold lastRecognized.
  destruct (find recognized (rev hooks)) as [hook|] eqn:Hfind.
  - exists hook. reflexivity.
  - assert (Hno : recognized h = false).
    { apply (find_none _ _ Hfind). apply in_rev. rewrite rev_involutive. exact Hin. }
    congruence.
Qed.

Lemma lastRecognized_none (hooks : list Webhook) :
  existsb recognized hooks = false -> lastRecognized hooks = None.
Proof.
  intros Hex. unfold lastRecognized.
  destruct (find recognized (rev hooks)) as [hook|] eqn:Hfind; [|reflexivity].
  apply find_some in Hfind. destruct Hfind as [Hin Hrec].
  assert (Htrue : existsb recognized hooks = true).
  { apply existsb_exists. exists hook. split; [apply in_rev; exact Hin | exact Hrec]. }
  congruence.
Qed.

Section Resolver.
Variable P : Platform.

Lemma resolveWebhook_found (w : World P) channelID hook :
  lastRecognized (fst (ChannelWebhooks P w channelID)) = Some hook ->
  resolveWebhook P channelID w = (Ret (Some hook), w, [CallChannelWebhooks channelID]).
Proof.
  intros Hlast. unfold resolveWebhook, bind, observe.
  rewrite selectWebhook_last, Hlast. reflexivity.
Qed.

Lemma resolveWebhook_create (w : World P) channelID channel :
  lastRecognized (fst (ChannelWebhooks P w channelID)) = None ->
  fst (Channel_get P w channelID) = Some channel ->
  resolveWebhook P channelID w =
    (Ret (fst (fst (WebhookCreate P w channelID ("ChatPlug " ++ Channel_Name channel)
                      "https://i.imgur.com/l2QP9Go.png"))),
     snd (WebhookCreate P w channelID ("ChatPlug " ++ Channel_Name channel)
            "https://i.imgur.com/l2QP9Go.png"),
     [CallChannelWebhooks channelID; CallChannel channelID;
      CallWebhookCreate channelID ("ChatPlug " ++ Channel_Name channel)
        "https://i.imgur.com/l2QP9Go.png"]).
Proof.
  intros Hlast Hchan. unfold resolveWebhook, bind, observe, act.
  rewrite selectWebhook_last, Hlast. cbn [negb]. rewrite Hchan. cbn [deref ret].
  destruct (WebhookCreate P w channelID ("ChatPlug " ++ Channel_Name channel)
              "https://i.imgur.com/l2QP9Go.png") as [[hook err] w'].
  reflexivity.
Qed.

Lemma resolveWebhook_no_channel (w : World P) channelID :
  lastRecognized (fst (ChannelWebhooks P w channelID)) = None ->
  fst (Channel_get P w channelID) = None ->
  resolveWebhook P channelID w =
    (Panic "invalid memory address or nil pointer dereference", w,
     [CallChannelWebhooks channelID; CallChannel channelID]).
Proof.
  intros Hlast Hchan. unfold resolveWebhook, bind, observe.
  rewrite selectWebhook_last, Hlast. cbn [negb]. rewrite Hchan. reflexivity.
Qed.

(** C5, as the code has it. When the listing holds a webhook whose name has
    the prefix "ChatPlug ", the resolver returns the last such webhook of the
    listing. *)
Theorem resolver_selects_last (w : World P) channelID :
  existsb recognized (fst (ChannelWebhooks P w channelID)) = true ->
  exists hook,
    lastRecognized (fst (ChannelWebhooks P w channelID)) = Some hook /\
    outcome_of (resolveWebhook P channelID w) = Ret (Some hook) /\
    In hook (fst (ChannelWebhooks P w channelID)) /\
    HasPrefix (Webhook_Name hook) "ChatPlug " = true.
Proof.
  intros Hex. destruct (lastRecognized_exists _ Hex) as [hook Hlast].
  exists hook. split; [exact Hlast|].
  rewrite (resolveWebhook_found _ _ _ Hlast).
  destruct (lastRecognized_In _ _ Hlast) as [Hin Hrec].
  split; [reflexivity | split; assumption].
Qed.

(** C6. With a webhook named with the prefix "ChatPlug " in the channel's
    listing, resolving twice in a row returns the same webhook both times,
    and neither resolution calls [WebhookCreate]. *)
Theorem resolver_idempotent (w : World P) channelID :
  existsb recognized (fst (ChannelWebhooks P w channelID)) = true ->
  let first := resolveWebhook P channelID w in
  let second := resolveWebhook P channelID (world_of first) in
  (exists hook,
     outcome_of first = Ret (Some hook) /\
     outcome_of second = Ret (Some hook) /\
     HasPrefix (Webhook_Name hook) "ChatPlug " = true) /\
  filter isCreate (trace_of first ++ trace_of second) = [].
Proof.
  intros Hex. destruct (lastRecognized_exists _ Hex) as [hook Hlast].
  cbv zeta. rewrite (resolveWebhook_found _ _ _ Hlast).
  cbn [world_of fst snd]. rewrite (resolveWebhook_found _ _ _ Hlast).
  split; [|reflexivity].
  exists hook. destruct (lastRecognized_In _ _ Hlast) as [_ Hrec].
  repeat split; assumption.
Qed.

End Resolver.

(** C5, as the claim states it, fails on a listing with two recognised
    webhooks: the first in listing order is [hookA], the resolver returns
    [hookB]. *)
Lemma resolver_selects_first_counterexample :
  existsb recognized (fst (ChannelWebhooks Sim.platform Sim.twoBridgeHooks "123")) = true /\
  firstRecognized (fst (ChannelWebhooks Sim.platform Sim.twoBridgeHooks "123"))
    = Some Sim.hookA /\
  outcome_of (resolveWebhook Sim.platform "123" Sim.twoBridgeHooks)
    <> Ret (firstRecognized (fst (ChannelWebhooks Sim.platform Sim.twoBridgeHooks "123"))).
Proof.
  split; [reflexivity | split; [reflexivity | ]].
  intros Heq. vm_compute in Heq. discriminate Heq.
Qed.

Lemma resolver_selects_last_witness :
  exists hook,
    lastRecognized (fst (ChannelWebhooks Sim.platform Sim.twoBridgeHooks "123")) = Some hook /\
    outcome_of (resolveWebhook Sim.platform "123" Sim.twoBridgeHooks) = Ret (Some hook) /\
    In hook (fst (ChannelWebhooks Sim.platform Sim.twoBridgeHooks "123")) /\
    HasPrefix (Webhook_Name hook) "ChatPlug " = true.
Proof.
  apply (resolver_selects_last Sim.platform Sim.twoBridgeHooks "123").
  reflexivity.
Defined.

Lemma resolver_idempotent_witness :
  filter isCreate
    (trace_of (resolveWebhook Sim.platform "123" Sim.oneBridgeHook) ++
     trace_of (resolveWebhook Sim.platform "123"
                 (world_of (resolveWebhook Sim.platform "123" Sim.oneBridgeHook)))) = [].
Proof.
  apply (resolver_idempotent Sim.platform Sim.oneBridgeHook "123").
  reflexivity.
Defined.

(** ** The outbound relay *)

Open Scope list_scope.

Lemma quiet_app (t1 t2 : list Call) :
  forallb quietCall t1 = true -> forallb quietCall t2 = true ->
  forallb quietCall (t1 ++ t2) = true.
Proof.
  intros H1 H2. rewrite forallb_app, H1, H2. reflexivity.
Qed.

Lemma quiet_no_Do (t : list Call) :
  forallb quietCall t = true -> filter isDo t = [].
Proof.
  induction t as [|c t IH]; [reflexivity|].
  cbn [forallb filter]. intros Hq. apply andb_prop in Hq. destruct Hq as [Hc Ht].
  unfold quietCall in Hc. apply andb_prop in Hc. destruct Hc as [_ Hdo].
  destruct (isDo c); [discriminate | auto].
Qed.

Lemma quiet_no_Create (t : list Call) :
  forallb quietCall t = true -> filter isCreate t = [].
Proof.
  induction t as [|c t IH]; [reflexivity|].
  cbn [forallb filter]. intros Hq. apply andb_prop in Hq. destruct Hq as [Hc Ht].
  unfold quietCall in Hc. apply andb_prop in Hc. destruct Hc as [Hcr _].
  destruct (isCreate c); [discriminate | auto].
Qed.

Section Outbound.
Variable P : Platform.

Lemma DownloadFile_downloaded (w : World P) url :
  exists t,
    DownloadFile P url "" w = (Ret (downloaded P w url), w, t) /\
    forallb quietCall t = true.
Proof.
  destruct (DownloadFile_returns P w url "") as [data [err [t [Hrun Hq]]]].
  exists t. unfold downloaded. rewrite Hrun. split; [reflexivity | exact Hq].
Qed.

Lemma attachmentPart_run (w : World P) parts a :
  exists t,
    attachmentPart P parts a w = (Ret (parts ++ attachmentParts P w [a]), w, t) /\
    forallb quietCall t = true.
Proof.
  destruct (DownloadFile_downloaded w (Attachment_SourceURL a)) as [t [Hrun Hq]].
  unfold attachmentPart, bind. cbn [Part_data]. rewrite Hrun.
  destruct (downloaded P w (Attachment_SourceURL a)) as [data err] eqn:Hdl.
  unfold attachmentParts. cbn [map]. rewrite Hdl. cbn [fst].
  destruct err as [e|]; cbn.
  - eexists. split; [reflexivity|].
    apply quiet_app; [exact Hq | reflexivity].
  - eexists. split; [reflexivity|]. rewrite app_nil_r. exact Hq.
Qed.

Lemma attachments_run (attachments : list Attachment) :
  forall (w : World P) parts,
  exists t,
    forRange attachments parts (attachmentPart P) w
      = (Ret (parts ++ attachmentParts P w attachments), w, t) /\
    forallb quietCall t = true.
Proof.
  induction attachments as [|a rest IH]; intros w parts.
  - exists []. cbn. rewrite app_nil_r. split; reflexivity.
  - destruct (attachmentPart_run w parts a) as [t1 [Hrun1 Hq1]].
    destruct (IH w (parts ++ attachmentParts P w [a])) as [t2 [Hrun2 Hq2]].
    exists (t1 ++ t2). cbn [forRange]. unfold bind at 1. rewrite Hrun1, Hrun2.
    split; [|apply quiet_app; assumption].
    rewrite <- app_assoc. reflexivity.
Qed.

(** The upload to a URL that parses: one request, the POST of
    [uploadRequest]; the handler then panics exactly when [Client.Do] gave no
    response. *)
Lemma postMessage_run (w : World P) webhook msg :
  url_Parse P (webhookURL webhook) = None ->
  exists t1 t2,
    trace_of (postMessage P webhook msg w)
      = t1 ++ CallDo (uploadRequest P w webhook msg) :: t2 /\
    world_of (postMessage P webhook msg w)
      = snd (Client_Do P w (uploadRequest P w webhook msg)) /\
    forallb quietCall t1 = true /\ forallb quietCall t2 = true /\
    outcome_of (postMessage P webhook msg w) =
      match http_resp (fst (Client_Do P w (uploadRequest P w webhook msg))) with
      | Some _ => Ret tt
      | None => Panic "invalid memory address or nil pointer dereference"
      end.
Proof.
  intros Hparse.
  destruct (attachments_run (Message_Attachments (msg_Message msg)) w
              [mkPart "payload_json" None
                 (json_Marshal P
                    {| Username := Author_Username (Message_Author (msg_Message msg));
                       AvatarURL := Author_AvatarURL (Message_Author (msg_Message msg));
                       Content := Message_Body (msg_Message msg) |})])
    as [ta [Hatt Hqa]].
  cbn [app] in Hatt.
  exists ([CallPrintln "Sending a message to the webhook"; CallPrintln "Wrote JSON payload"]
          ++ ta ++ [CallPrintln "Wrote attachments"; CallPrintln "Sending the request"]).
  unfold postMessage, bind, Println, emit, act, http_NewRequest.
  rewrite Hparse, Hatt. cbn [printErr deref ret].
  fold (uploadRequest P w webhook msg).
  destruct (Client_Do P w (uploadRequest P w webhook msg)) as [r w'].
  cbn [fst snd].
  assert (Hq1 : forallb quietCall
            ([CallPrintln "Sending a message to the webhook"; CallPrintln "Wrote JSON payload"]
             ++ ta ++ [CallPrintln "Wrote attachments"; CallPrintln "Sending the request"])
            = true).
  { apply quiet_app; [reflexivity|]. apply quiet_app; [exact Hqa | reflexivity]. }
  destruct r as [resp | [resp|] err]; cbn [http_err http_resp printErr deref ret panic].
  - destruct (negb (StatusCode resp =? 204) && negb (StatusCode resp =? 200)).
    + destruct (Body_err (Resp_Body resp)) as [e|] eqn:Hbe;
        unfold ioutil_ReadAll; rewrite Hbe; cbn;
        eexists; (split; [rewrite <- !app_assoc; cbn; reflexivity|]);
        (split; [reflexivity|]); (split; [exact Hq1|]); split; reflexivity.
    + cbn. eexists. split; [rewrite <- !app_assoc; cbn; reflexivity|].
      split; [reflexivity|]. split; [exact Hq1|]. split; reflexivity.
  - unfold Println, emit.
    destruct (negb (StatusCode resp =? 204) && negb (StatusCode resp =? 200)).
    + destruct (Body_err (Resp_Body resp)) as [e|] eqn:Hbe;
        unfold ioutil_ReadAll; rewrite Hbe; cbn;
        eexists; (split; [rewrite <- !app_assoc; cbn; reflexivity|]);
        (split; [reflexivity|]); (split; [exact Hq1|]); split; reflexivity.
    + cbn. eexists. split; [rewrite <- !app_assoc; cbn; reflexivity|].
      split; [reflexivity|]. split; [exact Hq1|]. split; reflexivity.
  - unfold Println, emit. cbn.
    eexists. split; [rewrite <- !app_assoc; cbn; reflexivity|].
    split; [reflexivity|]. split; [exact Hq1|]. split; reflexivity.
Qed.

(** The upload to a URL that does not parse: the error is printed, line 103
    panics, and no request is sent. *)
Lemma postMessage_unparsable (w : World P) webhook msg err :
  url_Parse P (webhookURL webhook) = Some err ->
  exists t,
    postMessage P webhook msg w =
      (Panic "invalid memory address or nil pointer dereference", w, t) /\
    forallb quietCall t = true.
Proof.
  intros Hparse.
  destruct (attachments_run (Message_Attachments (msg_Message msg)) w
              [mkPart "payload_json" None
                 (json_Marshal P
                    {| Username := Author_Username (Message_Author (msg_Message msg));
                       AvatarURL := Author_AvatarURL (Message_Author (msg_Message msg));
                       Content := Message_Body (msg_Message msg) |})])
    as [ta [Hatt Hqa]].
  unfold postMessage, bind, Println, emit, act, http_NewRequest.
  rewrite Hparse, Hatt. cbn [printErr deref panic]. unfold Println, emit.
  eexists. split; [reflexivity|].
  cbn [app]. cbn [forallb quietCall isCreate isDo negb andb].
  rewrite !forallb_app, Hqa. reflexivity.
Qed.

End Outbound.


Lemma filter_Do_around (t1 t2 : list Call) (req : Request) :
  forallb quietCall t1 = true -> forallb quietCall t2 = true ->
  filter isDo (t1 ++ CallDo req :: t2) = [CallDo req].
Proof.
  intros H1 H2. rewrite filter_app. cbn [filter isDo].
  rewrite (quiet_no_Do _ H1), (quiet_no_Do _ H2). reflexivity.
Qed.


Section Relay.
Variable P : Platform.

(** One turn of the loop: the resolution, then the upload through the
    webhook it returned; a nil webhook panics at line 55. *)
Lemma handleMessage_run (w : World P) msg :
  handleMessage P msg w =
    match resolveWebhook P (TargetThreadID msg) w with
    | (Ret (Some hook), w1, t0) =>
        (outcome_of (postMessage P hook msg w1), world_of (postMessage P hook msg w1),
         t0 ++ trace_of (postMessage P hook msg w1))
    | (Ret None, w1, t0) =>
        (Panic "invalid memory address or nil pointer dereference", w1, t0)
    | (Panic s, w1, t0) => (Panic s, w1, t0)
    end.
Proof.
  unfold handleMessage, bind.
  destruct (resolveWebhook P (TargetThreadID msg) w) as [[[[hook|]|s] w1] t0];
    cbn [deref ret panic].
  - unfold outcome_of, world_of, trace_of.
    destruct (postMessage P hook msg w1) as [[o w2] t]. reflexivity.
  - rewrite app_nil_r. reflexivity.
  - reflexivity.
Qed.

Lemma resolveWebhook_quiet_Do (w : World P) channelID :
  forallb (fun c => negb (isDo c)) (trace_of (resolveWebhook P channelID w)) = true.
Proof.
  destruct (lastRecognized (fst (ChannelWebhooks P w channelID))) as [hook|] eqn:Hlast.
  - rewrite (resolveWebhook_found _ _ _ _ Hlast). reflexivity.
  - destruct (fst (Channel_get P w channelID)) as [channel|] eqn:Hchan.
    + rewrite (resolveWebhook_create _ _ _ _ Hlast Hchan). reflexivity.
    + rewrite (resolveWebhook_no_channel _ _ _ Hlast Hchan). reflexivity.
Qed.

Lemma resolveWebhook_no_Do (w : World P) channelID :
  filter isDo (trace_of (resolveWebhook P channelID w)) = [].
Proof.
  pose proof (resolveWebhook_quiet_Do w channelID) as Hq.
  induction (trace_of (resolveWebhook P channelID w)) as [|c t IH]; [reflexivity|].
  cbn [forallb filter] in *. apply andb_prop in Hq. destruct Hq as [Hc Ht].
  destruct (isDo c); [discriminate | auto].
Qed.



Lemma handleMessages_cons (w : World P) msg rest :
  handleMessages P (msg :: rest) w =
    match handleMessage P msg w with
    | (Ret _, w1, t1) =>
        (outcome_of (handleMessages P rest w1), world_of (handleMessages P rest w1),
         t1 ++ trace_of (handleMessages P rest w1))
    | (Panic s, w1, t1) => (Panic s, w1, t1)
    end.
Proof.
  unfold handleMessages. cbn [forRange]. unfold bind at 1.
  destruct (handleMessage P msg w) as [[[[]|s] w1] t1]; [|reflexivity].
  unfold outcome_of, world_of, trace_of.
  destruct (forRange rest tt (fun _ m => handleMessage P m) w1) as [[o w2] t2].
  reflexivity.
Qed.

(** A download that fails wrote nothing, unless the copy itself broke off. *)
Lemma failed_download_data (w : World P) url data err :
  downloaded P w url = (data, Some err) ->
  data = ""%string \/
  exists resp, http_Get P w url = HttpOk resp /\
               data = Body_bytes (Resp_Body resp) /\
               Body_err (Resp_Body resp) = Some err.
Proof.
  unfold downloaded, outcome_of.
  destruct (http_Head P w url) as [head | r e] eqn:Hhead.
  - rewrite (DownloadFile_probe_ok P w url "" head Hhead).
    destruct (ContentLength head >? 8 * 1024 * 1024); cbn [fst].
    + intros Heq. injection Heq as Hd _. left. symmetry. exact Hd.
    + destruct (http_Get P w url) as [resp | r e]; cbn [fst].
      * intros Heq. injection Heq as Hd He. right. exists resp.
        split; [reflexivity | split; [symmetry; exact Hd | exact He]].
      * intros Heq. injection Heq as Hd _. left. symmetry. exact Hd.
  - rewrite (DownloadFile_probe_err P w url "" r e Hhead). cbn [fst].
    intros Heq. injection Heq as Hd _. left. symmetry. exact Hd.
Qed.




(** C7, as the code has it. When the listing has no webhook named with the
    prefix and the channel look-up returns the channel, the turn for the
    message calls [WebhookCreate] exactly once, for the name "ChatPlug "
    followed by the channel's name and with the default icon, and no request
    precedes that call; when the call returns a webhook whose URL parses,
    the one POST of the turn goes to that webhook's URL and follows the
    call. *)
Theorem unrecognized_channel_creates_once (w : World P) msg channel :
  existsb recognized (fst (ChannelWebhooks P w (TargetThreadID msg))) = false ->
  fst (Channel_get P w (TargetThreadID msg)) = Some channel ->
  exists t1 t2,
    trace_of (handleMessage P msg w) =
      t1 ++ CallWebhookCreate (TargetThreadID msg)
              ("ChatPlug " ++ Channel_Name channel)%string
              "https://i.imgur.com/l2QP9Go.png" :: t2 /\
    filter isCreate t1 = [] /\ filter isDo t1 = [] /\
    filter isCreate t2 = [] /\
    (forall hook,
        fst (fst (WebhookCreate P w (TargetThreadID msg)
                    ("ChatPlug " ++ Channel_Name channel)%string
                    "https://i.imgur.com/l2QP9Go.png")) = Some hook ->
        url_Parse P (webhookURL hook) = None ->
        exists req,
          filter isDo t2 = [CallDo req] /\
          Req_Method req = "POST"%string /\ Req_URL req = webhookURL hook).
Proof.
  intros Hnone Hchan. apply lastRecognized_none in Hnone.
  rewrite handleMessage_run, (resolveWebhook_create _ _ _ _ Hnone Hchan).
  set (created := WebhookCreate P w (TargetThreadID msg)
                    ("ChatPlug " ++ Channel_Name channel)%string
                    "https://i.imgur.com/l2QP9Go.png").
  exists [CallChannelWebhooks (TargetThreadID msg); CallChannel (TargetThreadID msg)].
  destruct (fst (fst created)) as [hook|] eqn:Hhook.
  - exists (trace_of (postMessage P hook msg (snd created))).
    cbn [trace_of snd app]. split; [reflexivity|].
    split; [reflexivity|]. split; [reflexivity|].
    fold (trace_of (postMessage P hook msg (snd created))).
    destruct (url_Parse P (webhookURL hook)) as [err|] eqn:Hparse.
    + destruct (postMessage_unparsable P (snd created) hook msg err Hparse)
        as [t [Hrun Hq]].
      rewrite Hrun. cbn [trace_of snd]. split; [exact (quiet_no_Create _ Hq)|].
      intros hook' Heq Hparse'. injection Heq as Heq. subst hook'. congruence.
    + destruct (postMessage_run P (snd created) hook msg Hparse)
        as [t1 [t2 [Htr [_ [Hq1 [Hq2 _]]]]]].
      rewrite Htr. split.
      * rewrite filter_app. cbn [filter isCreate].
        rewrite (quiet_no_Create _ Hq1), (quiet_no_Create _ Hq2). reflexivity.
      * intros hook' Heq _. injection Heq as Heq. subst hook'.
        exists (uploadRequest P (snd created) hook msg).
        split; [apply filter_Do_around; assumption | split; reflexivity].
  - exists []. cbn [trace_of snd app]. split; [reflexivity|].
    split; [reflexivity|]. split; [reflexivity|]. split; [reflexivity|].
    intros hook Heq. discriminate Heq.
Qed.

(** C2, as the code has it. For a message with two attachments whose first
    download fails and whose second succeeds, resolved to a webhook whose
    URL parses, the turn still sends its one POST; the body holds the
    [payload_json] field, then a file part for the first attachment, then
    the file part of the second attachment.  The part of the failed
    attachment holds what was written before the failure: nothing, unless
    the GET succeeded and the copy broke off, and then the bytes copied. *)
Theorem partial_attachment_failure (w w1 : World P) msg hook t0 a1 a2 d1 e1 d2 :
  resolveWebhook P (TargetThreadID msg) w = (Ret (Some hook), w1, t0) ->
  url_Parse P (webhookURL hook) = None ->
  Message_Attachments (msg_Message msg) = [a1; a2] ->
  outcome_of (DownloadFile P (Attachment_SourceURL a1) "" w1) = Ret (d1, Some e1) ->
  outcome_of (DownloadFile P (Attachment_SourceURL a2) "" w1) = Ret (d2, None) ->
  filter isDo (trace_of (handleMessage P msg w)) =
    [CallDo
       (mkRequest "POST" (webhookURL hook)
          [mkPart "payload_json" None
             (json_Marshal P
                {| Username := Author_Username (Message_Author (msg_Message msg));
                   AvatarURL := Author_AvatarURL (Message_Author (msg_Message msg));
                   Content := Message_Body (msg_Message msg) |});
           mkPart (path_Base (Attachment_SourceURL a1))
             (Some (path_Base (Attachment_SourceURL a1))) d1;
           mkPart (path_Base (Attachment_SourceURL a2))
             (Some (path_Base (Attachment_SourceURL a2))) d2])] /\
  (d1 = ""%string \/
   exists resp,
     http_Get P w1 (Attachment_SourceURL a1) = HttpOk resp /\
     d1 = Body_bytes (Resp_Body resp) /\
     Body_err (Resp_Body resp) = Some e1).
Proof.
  intros Hres Hparse Hatt Hd1 Hd2.
  pose proof (resolveWebhook_no_Do w (TargetThreadID msg)) as Hno.
  rewrite handleMessage_run. rewrite Hres in *. cbn [trace_of snd] in *.
  destruct (postMessage_run P w1 hook msg Hparse) as [t1 [t2 [Htr [_ [Hq1 [Hq2 _]]]]]].
  fold (trace_of (postMessage P hook msg w1)). rewrite Htr. split.
  - rewrite filter_app, Hno. cbn [app].
    rewrite (filter_Do_around _ _ _ Hq1 Hq2).
    unfold uploadRequest, attachmentParts, downloaded.
    rewrite Hatt. cbn [map]. rewrite Hd1, Hd2. reflexivity.
  - apply (failed_download_data w1 (Attachment_SourceURL a1) d1 e1).
    unfold downloaded. rewrite Hd1. reflexivity.
Qed.

(** A nil webhook or a missing response ends the whole loop, whatever
    messages are still waiting. *)
Lemma nil_webhook_panics (w w1 : World P) msg rest t0 :
  resolveWebhook P (TargetThreadID msg) w = (Ret None, w1, t0) ->
  handleMessages P (msg :: rest) w =
    (Panic "invalid memory address or nil pointer dereference", w1, t0).
Proof.
  intros Hres. rewrite handleMessages_cons, handleMessage_run, Hres. reflexivity.
Qed.

Lemma no_response_panics (w w1 : World P) msg rest hook t0 :
  resolveWebhook P (TargetThreadID msg) w = (Ret (Some hook), w1, t0) ->
  url_Parse P (webhookURL hook) = None ->
  http_resp (fst (Client_Do P w1 (uploadRequest P w1 hook msg))) = None ->
  outcome_of (handleMessages P (msg :: rest) w)
    = Panic "invalid memory address or nil pointer dereference" /\
  trace_of (handleMessages P (msg :: rest) w)
    = t0 ++ trace_of (postMessage P hook msg w1).
Proof.
  intros Hres Hparse Hresp. rewrite handleMessages_cons, handleMessage_run, Hres.
  destruct (postMessage_run P w1 hook msg Hparse) as [t1 [t2 [_ [_ [_ [_ Hout]]]]]].
  rewrite Hresp in Hout. rewrite Hout. split; reflexivity.
Qed.

(** A failure before the copy leaves the part empty. *)
Lemma failed_probe_writes_nothing (w : World P) url resp err :
  http_Head P w url = HttpErr resp err ->
  downloaded P w url = (""%string, Some err).
Proof.
  intros Hhead. unfold downloaded.
  rewrite (DownloadFile_probe_err _ _ _ _ _ _ Hhead). reflexivity.
Qed.

End Relay.


(** C7, as the claim states it, fails when the channel look-up returns no
    channel: the listing has no recognised webhook, no creation call is made
    and the turn panics at line 52. *)
Lemma unrecognized_channel_counterexample :
  existsb recognized
    (fst (ChannelWebhooks Sim.platform Cases.unknownChannel "123")) = false /\
  filter isCreate
    (trace_of (handleMessage Sim.platform (Sim.hubMessage "hi" []) Cases.unknownChannel))
    = [] /\
  handleMessage Sim.platform (Sim.hubMessage "hi" []) Cases.unknownChannel =
    (Panic "invalid memory address or nil pointer dereference", Cases.unknownChannel,
     [CallChannelWebhooks "123"; CallChannel "123"]).
Proof.
  repeat split.
Qed.

Lemma unrecognized_channel_creates_once_witness :
  exists t1 t2,
    trace_of (handleMessage Sim.platform (Sim.hubMessage "hi" []) Sim.base) =
      t1 ++ CallWebhookCreate "123" "ChatPlug general-chat"
              "https://i.imgur.com/l2QP9Go.png" :: t2 /\
    filter isCreate t1 = [] /\ filter isDo t1 = [] /\
    filter isCreate t2 = [] /\
    (forall hook,
        fst (fst (WebhookCreate Sim.platform Sim.base "123" "ChatPlug general-chat"
                    "https://i.imgur.com/l2QP9Go.png")) = Some hook ->
        url_Parse Sim.platform (webhookURL hook) = None ->
        exists req,
          filter isDo t2 = [CallDo req] /\
          Req_Method req = "POST"%string /\ Req_URL req = webhookURL hook).
Proof.
  apply (unrecognized_channel_creates_once Sim.platform Sim.base
           (Sim.hubMessage "hi" []) Sim.general).
  - reflexivity.
  - reflexivity.
Defined.

(** C2, as the claim states it, fails: the download of [missing.png] fails,
    that of [cat.png] succeeds, and the body of the POST still has a part for
    [missing.png] between the [payload_json] field and the part of
    [cat.png]. *)
Lemma failed_part_omitted_counterexample :
  snd (downloaded Sim.platform Sim.oneBridgeHook (Attachment_SourceURL Sim.missing))
    = Some "no such host"%string /\
  snd (downloaded Sim.platform Sim.oneBridgeHook (Attachment_SourceURL Sim.cat)) = None /\
  exists req,
    filter isDo
      (trace_of (handleMessage Sim.platform
                   (Sim.hubMessage "hi" [Sim.missing; Sim.cat]) Sim.oneBridgeHook))
      = [CallDo req] /\
    Req_Parts req =
      [mkPart "payload_json" None
         "{content:hi,username:carol,avatar_url:http://hub.example/carol.png}";
       mkPart "missing.png" (Some "missing.png"%string) "";
       mkPart "cat.png" (Some "cat.png"%string) "hello"] /\
    map Part_name (Req_Parts req) <> ["payload_json"; "cat.png"]%string.
Proof.
  split; [reflexivity | split; [reflexivity|]].
  eexists. split; [vm_compute; reflexivity|].
  split; [reflexivity | discriminate].
Qed.

Lemma partial_attachment_failure_witness :
  filter isDo
    (trace_of (handleMessage Sim.platform
                 (Sim.hubMessage "hi" [Sim.missing; Sim.cat]) Sim.oneBridgeHook)) =
    [CallDo
       (mkRequest "POST" (webhookURL Sim.hookA)
          [mkPart "payload_json" None
             (json_Marshal Sim.platform
                {| Username := "carol"; AvatarURL := "http://hub.example/carol.png";
                   Content := "hi" |});
           mkPart "missing.png" (Some "missing.png"%string) "";
           mkPart "cat.png" (Some "cat.png"%string) "hello"])] /\
  (""%string = ""%string \/
   exists resp,
     http_Get Sim.platform Sim.oneBridgeHook (Attachment_SourceURL Sim.missing)
       = HttpOk resp /\
     ""%string = Body_bytes (Resp_Body resp) /\
     Body_err (Resp_Body resp) = Some "no such host"%string).
Proof.
  apply (partial_attachment_failure Sim.platform Sim.oneBridgeHook Sim.oneBridgeHook
           (Sim.hubMessage "hi" [Sim.missing; Sim.cat]) Sim.hookA
           [CallChannelWebhooks "123"] Sim.missing Sim.cat
           ""%string "no such host"%string "hello"%string).
  - reflexivity.
  - reflexivity.
  - reflexivity.
  - reflexivity.
  - reflexivity.
Defined.

(** C3, on the code. With two messages waiting, a [WebhookCreate] that
    returns no webhook makes the first turn panic at line 55: no request is
    sent and the second message is never taken.  A [Client.Do] that returns
    no response makes the first turn panic at line 114, after printing the
    error: the second message is never taken either.  When both calls
    succeed the same two messages give two requests. *)
Theorem failed_send_stops_loop :
  (outcome_of (handleMessages Sim.platform
                 [Sim.hubMessage "hi" []; Sim.hubMessage "yo" []]
                 (Sim.withCreate Sim.base false))
     = Panic "invalid memory address or nil pointer dereference" /\
   trace_of (handleMessages Sim.platform
               [Sim.hubMessage "hi" []; Sim.hubMessage "yo" []]
               (Sim.withCreate Sim.base false))
     = [CallChannelWebhooks "123"; CallChannel "123";
        CallWebhookCreate "123" "ChatPlug general-chat"
          "https://i.imgur.com/l2QP9Go.png"]) /\
  (outcome_of (handleMessages Sim.platform
                 [Sim.hubMessage "hi" []; Sim.hubMessage "yo" []]
                 (Sim.withUpload Sim.oneBridgeHook (HttpErr None "connection refused")))
     = Panic "invalid memory address or nil pointer dereference" /\
   filter isDo
     (trace_of (handleMessages Sim.platform
                  [Sim.hubMessage "hi" []; Sim.hubMessage "yo" []]
                  (Sim.withUpload Sim.oneBridgeHook (HttpErr None "connection refused"))))
     = [CallDo (uploadRequest Sim.platform Sim.oneBridgeHook Sim.hookA
                  (Sim.hubMessage "hi" []))]) /\
  (outcome_of (handleMessages Sim.platform
                 [Sim.hubMessage "hi" []; Sim.hubMessage "yo" []] Sim.oneBridgeHook)
     = Ret tt /\
   filter isDo
     (trace_of (handleMessages Sim.platform
                  [Sim.hubMessage "hi" []; Sim.hubMessage "yo" []] Sim.oneBridgeHook))
     = [CallDo (uploadRequest Sim.platform Sim.oneBridgeHook Sim.hookA
                  (Sim.hubMessage "hi" []));
        CallDo (uploadRequest Sim.platform Sim.oneBridgeHook Sim.hookA
                  (Sim.hubMessage "yo" []))]).
Proof.
  repeat split; vm_compute; reflexivity.
Qed.

(** ** The search responder *)

Lemma prefix_app (p s : string) :
  String.prefix p s = true <-> exists rest, s = (p ++ rest)%string.
Proof.
  revert s. induction p as [|a p IH]; intros s.
  - split; [intros _; exists s; reflexivity | intros _; destruct s; reflexivity].
  - destruct s as [|b s]; cbn [String.prefix String.append].
    + split; [discriminate | intros [rest Heq]; discriminate Heq].
    + destruct (ascii_dec a b) as [Heq | Hne].
      * subst b. rewrite IH. split; intros [rest Hrest]; exists rest.
        -- rewrite Hrest. reflexivity.
        -- injection Hrest as Hrest. exact Hrest.
      * split; [discriminate|]. intros [rest Hrest]. injection Hrest as Hab _.
        congruence.
Qed.

(** [Contains s substr] holds exactly when [substr] is a substring of [s],
    byte for byte. *)
Lemma Contains_substring (s substr : string) :
  Contains s substr = true <->
  exists before after, s = (before ++ substr ++ after)%string.
Proof.
  induction s as [|c s IH]; cbn [Contains].
  - destruct (String.prefix substr "") eqn:Hpre.
    + split; [|reflexivity]. intros _. apply prefix_app in Hpre.
      destruct Hpre as [rest Hrest]. exists ""%string, rest. exact Hrest.
    + split; [discriminate|]. intros [before [after Heq]].
      destruct before; [|discriminate Heq]. cbn in Heq.
      assert (Htrue : String.prefix substr "" = true).
      { apply prefix_app. exists after. exact Heq. }
      congruence.
  - destruct (String.prefix substr (String c s)) eqn:Hpre.
    + split; [|reflexivity]. intros _. apply prefix_app in Hpre.
      destruct Hpre as [rest Hrest]. exists ""%string, rest. exact Hrest.
    + rewrite IH. split.
      * intros [before [after Heq]]. exists (String c before), after.
        rewrite Heq. reflexivity.
      * intros [before [after Heq]]. destruct before as [|b before].
        -- cbn in Heq.
           assert (Htrue : String.prefix substr (String c s) = true).
           { apply prefix_app. exists after. exact Heq. }
           congruence.
        -- injection Heq as _ Heq. exists before, after. exact Heq.
Qed.

Lemma searchStep_cases (query : string) (guild : Guild) acc channel :
  searchStep query guild acc channel =
    if (length acc <? 30)%nat && searchMatches query guild channel
    then acc ++ [searchResult guild channel]
    else acc.
Proof.
  unfold searchStep, searchMatches, searchResult. rewrite andb_assoc. reflexivity.
Qed.

Lemma searchStep_fold (query : string) (guild : Guild) (channels : list Channel) :
  forall acc,
    fold_left (searchStep query guild) channels acc =
      acc ++ firstn (30 - length acc)
               (map (searchResult guild) (filter (searchMatches query guild) channels)).
Proof.
  induction channels as [|c cs IH]; intros acc.
  - cbn. rewrite firstn_nil, app_nil_r. reflexivity.
  - cbn [fold_left filter]. rewrite IH, searchStep_cases.
    destruct (length acc <? 30)%nat eqn:Hlen; cbn [andb].
    + apply Nat.ltb_lt in Hlen.
      destruct (searchMatches query guild c); [|reflexivity].
      rewrite <- app_assoc, length_app. cbn [length map app].
      replace (30 - length acc)%nat with (S (30 - (length acc + 1)))%nat by lia.
      reflexivity.
    + apply Nat.ltb_ge in Hlen.
      replace (30 - length acc)%nat with 0%nat by lia. reflexivity.
Qed.

Lemma firstn_extend {A} (n : nat) (acc xs ys : list A) :
  (acc ++ firstn (n - length acc) xs)
    ++ firstn (n - length (acc ++ firstn (n - length acc) xs)) ys
  = acc ++ firstn (n - length acc) (xs ++ ys).
Proof.
  rewrite <- app_assoc. f_equal. rewrite firstn_app. f_equal.
  rewrite length_app, length_firstn.
  destruct (Nat.le_ge_cases (length xs) (n - length acc)) as [Hle | Hge].
  - f_equal. lia.
  - replace (n - (length acc + Nat.min (n - length acc) (length xs)))%nat with 0%nat by lia.
    replace (n - length acc - length xs)%nat with 0%nat by lia. reflexivity.
Qed.

Section Search.
Variable P : Platform.

Lemma search_guilds_run (query : string) (w : World P) (guilds : list Guild) :
  forall acc,
    forRange guilds acc
      (fun threadResults guild =>
         channels <- observe (CallGuildChannels (Guild_ID guild))
                       (fun w => fst (GuildChannels P w (Guild_ID guild))) ;;
         ret (fold_left (searchStep query guild) channels threadResults)) w
    = (Ret (acc ++ firstn (30 - length acc)
                     (flat_map
                        (fun guild =>
                           map (searchResult guild)
                             (filter (searchMatches query guild)
                                (fst (GuildChannels P w (Guild_ID guild)))))
                        guilds)),
       w, map (fun guild => CallGuildChannels (Guild_ID guild)) guilds).
Proof.
  induction guilds as [|g gs IH]; intros acc.
  - cbn. rewrite firstn_nil, app_nil_r. reflexivity.
  - cbn [forRange]. unfold bind at 1. unfold bind at 1. unfold observe, ret.
    rewrite IH, searchStep_fold. cbn [flat_map map app].
    rewrite firstn_extend. reflexivity.
Qed.

(** C8. For every query the responder answers once, with the first 30 of the
    channels the query selects, in guild-then-channel order; each result
    comes from a text channel of a known guild whose name, or whose guild's
    name, has the query as a substring, is named "<guild> - <channel>" and
    carries the channel's ID as its origin ID. *)
Theorem search_response (w : World P) (query : string) :
  exists results,
    Startup_searchRequest P query w =
      (Ret tt, w,
       map (fun guild => CallGuildChannels (Guild_ID guild)) (State_Guilds P w)
         ++ [CallSetSearchResponse query results]) /\
    (length results <= 30)%nat /\
    results = firstn 30 (searchCandidates P w query) /\
    forall r, In r results ->
      exists guild channel,
        In guild (State_Guilds P w) /\
        In channel (fst (GuildChannels P w (Guild_ID guild))) /\
        Channel_Type channel = ChannelTypeGuildText /\
        ((exists before after,
             Channel_Name channel = (before ++ query ++ after)%string) \/
         (exists before after,
             Guild_Name guild = (before ++ query ++ after)%string)) /\
        SearchThreadInput_Name r
          = (Guild_Name guild ++ " - " ++ Channel_Name channel)%string /\
        SearchThreadInput_OriginID r = Channel_ID channel.
Proof.
  exists (firstn 30 (searchCandidates P w query)).
  split; [|split; [|split]].
  - unfold Startup_searchRequest. unfold bind at 1. unfold gets.
    unfold bind at 1. rewrite search_guilds_run. reflexivity.
  - apply firstn_le_length.
  - reflexivity.
  - intros r Hin.
    assert (Hcand : In r (searchCandidates P w query)).
    { rewrite <- (firstn_skipn 30 (searchCandidates P w query)).
      apply in_or_app. left. exact Hin. }
    unfold searchCandidates in Hcand. apply in_flat_map in Hcand.
    destruct Hcand as [guild [Hguild Hr]]. apply in_map_iff in Hr.
    destruct Hr as [channel [Hres Hchan]]. apply filter_In in Hchan.
    destruct Hchan as [Hchan Hmatch]. unfold searchMatches in Hmatch.
    apply andb_prop in Hmatch. destruct Hmatch as [Hsub Htype].
    exists guild, channel. subst r.
    split; [exact Hguild | split; [exact Hchan | split]].
    + apply Z.eqb_eq. exact Htype.
    + split; [|split; reflexivity].
      apply orb_prop in Hsub. destruct Hsub as [Hsub | Hsub];
        apply Contains_substring in Hsub; [left | right]; exact Hsub.
Qed.

End Search.

(** The query "general" against the guild "Test Guild" with the text channel
    "general-chat" and a voice channel. *)
Example search_general :
  Startup_searchRequest Sim.platform "general" Sim.base =
    (Ret tt, Sim.base,
     [CallGuildChannels "1";
      CallSetSearchResponse "general"
        [mkSearchThreadInput "Test Guild - general-chat"
           "http://cdn.discordapp.com/icons/1/ic.png" "123"]]).
Proof. reflexivity. Qed.

(** ** The inbound relay: what is forwarded *)

Lemma fold_append_map {A B} (f : A -> B) (l : list A) :
  forall init, fold_left (fun acc a => acc ++ [f a]) l init = init ++ map f l.
Proof.
  induction l as [|a l IH]; intros init; cbn [fold_left map].
  - rewrite app_nil_r. reflexivity.
  - rewrite IH, <- app_assoc. reflexivity.
Qed.

Section Forwarding.
Variable P : Platform.

(** X1. An event that is not the bridge's own and whose webhook does not
    resolve to a webhook named with the prefix is forwarded as it is: one
    webhook look-up, then one [SendMessage] with the content, the message,
    channel and author identifiers, the author's name and medium avatar, and
    one IMAGE attachment per Discord attachment, in the same order. *)
Theorem event_forwarded_as_is (w : World P) (m : MessageCreate) :
  User_ID (m_Author m) <> User_ID (State_User P w) ->
  (forall hook, Webhook_get P w (m_WebhookID m) = (Some hook, None) ->
                HasPrefix (Webhook_Name hook) "ChatPlug " = false) ->
  discordMessageCreate P m w =
    (Ret tt, w,
     [CallWebhook (m_WebhookID m);
      CallSendMessage (m_Content m) (m_ID m) (m_ChannelID m)
        (User_Username (m_Author m)) (User_ID (m_Author m))
        (User_AvatarURL P (m_Author m) "medium")
        (hubAttachments (m_Attachments m))]).
Proof.
  intros Hself Hhook. unfold discordMessageCreate, bind, gets, observe, emit.
  apply String.eqb_neq in Hself. rewrite Hself.
  unfold hubAttachments.
  rewrite (fold_append_map
             (fun a => {| AttachmentInput_Type := "IMAGE";
                          AttachmentInput_OriginID := MessageAttachment_ID a;
                          AttachmentInput_SourceURL := MessageAttachment_URL a |})).
  destruct (Webhook_get P w (m_WebhookID m)) as [[hook|] [err|]] eqn:Hget;
    try reflexivity.
  rewrite (Hhook hook eq_refl). reflexivity.
Qed.

(** X2. The handler sends nothing to the hub exactly when the event is the
    bridge's own or its webhook resolves, without error, to a webhook named
    with the prefix; a failed look-up never holds an event back. *)
Theorem forwarded_unless_suppressed (w : World P) (m : MessageCreate) :
  filter isSendMessage (trace_of (discordMessageCreate P m w)) = [] <->
  suppressed P w m.
Proof.
  unfold suppressed, discordMessageCreate, bind, gets, observe, emit.
  destruct (String.eqb (User_ID (m_Author m)) (User_ID (State_User P w))) eqn:Hself.
  - apply String.eqb_eq in Hself. split; [intros _; left; exact Hself | reflexivity].
  - apply String.eqb_neq in Hself.
    destruct (Webhook_get P w (m_WebhookID m)) as [[hook|] [err|]] eqn:Hget; cbn.
    + split; [discriminate|]. intros [Heq | [h [Hh _]]]; [contradiction | discriminate Hh].
    + destruct (HasPrefix (Webhook_Name hook) "ChatPlug ") eqn:Hpre; cbn.
      * split; [|reflexivity]. intros _. right. exists hook. split; [reflexivity | exact Hpre].
      * split; [discriminate|]. intros [Heq | [h [Hh Hp]]]; [contradiction|].
        injection Hh as Hh. subst h. congruence.
    + split; [discriminate|]. intros [Heq | [h [Hh _]]]; [contradiction | discriminate Hh].
    + split; [discriminate|]. intros [Heq | [h [Hh _]]]; [contradiction | discriminate Hh].
Qed.

End Forwarding.

Lemma event_forwarded_as_is_witness :
  discordMessageCreate Sim.platform Cases.plainEvent Sim.oneBridgeHook =
    (Ret tt, Sim.oneBridgeHook,
     [CallWebhook "";
      CallSendMessage "look" "m7" "123" "dave" "18"
        "https://cdn.discordapp.com/avatars/18/c3.png?size=medium"
        [mkAttachmentInput "IMAGE" "a1" "http://cdn.example/a/cat.png";
         mkAttachmentInput "IMAGE" "a2" "http://cdn.example/a/dog.png"]]).
Proof.
  apply (event_forwarded_as_is Sim.platform Sim.oneBridgeHook Cases.plainEvent).
  - discriminate.
  - intros hook Hget. discriminate Hget.
Defined.

(** ** The attachment fetcher: failures and the copy *)

Lemma string_app_empty (s : string) : (s ++ "")%string = s.
Proof.
  induction s as [|c s IH]; cbn; [reflexivity | rewrite IH; reflexivity].
Qed.

Section Fetching.
Variable P : Platform.

Lemma DownloadFile_shape (w : World P) url dst :
  exists written err t,
    DownloadFile P url dst w = (Ret ((dst ++ written)%string, err), w, t) /\
    (t = [CallHead url] \/ t = [CallHead url; CallGet url]).
Proof.
  destruct (http_Head P w url) as [head | resp err] eqn:Hhead.
  - rewrite (DownloadFile_probe_ok P w url dst head Hhead).
    destruct (ContentLength head >? 8 * 1024 * 1024).
    + exists ""%string. eexists _, _. rewrite string_app_empty.
      split; [reflexivity | left; reflexivity].
    + destruct (http_Get P w url) as [resp | resp err].
      * eexists _, _, _. split; [reflexivity | right; reflexivity].
      * exists ""%string. eexists _, _. rewrite string_app_empty.
        split; [reflexivity | right; reflexivity].
  - rewrite (DownloadFile_probe_err P w url dst resp err Hhead).
    exists ""%string. eexists _, _. rewrite string_app_empty.
    split; [reflexivity | left; reflexivity].
Qed.

(** X3. [DownloadFile] always returns; it only appends to what the sink
    holds, leaves the platform as it was, and makes one HEAD request
    followed by at most one GET request. *)
Theorem DownloadFile_only_appends (w : World P) url dst :
  exists written err,
    outcome_of (DownloadFile P url dst w) = Ret ((dst ++ written)%string, err) /\
    world_of (DownloadFile P url dst w) = w /\
    (trace_of (DownloadFile P url dst w) = [CallHead url] \/
     trace_of (DownloadFile P url dst w) = [CallHead url; CallGet url]).
Proof.
  destruct (DownloadFile_shape w url dst) as [written [err [t [Hrun Ht]]]].
  exists written, err. rewrite Hrun. split; [reflexivity | split; [reflexivity | exact Ht]].
Qed.

(** X4. The ceiling bears on the length the HEAD response declares and on
    nothing else: when that length is at most 8 MiB (or unknown, -1) and the
    GET succeeds, the whole body of the GET response is copied to the sink,
    however long it is, and the error returned is the one the copy met. *)
Theorem DownloadFile_copies_whole_body (w : World P) url dst head resp :
  http_Head P w url = HttpOk head ->
  ContentLength head <= 8 * 1024 * 1024 ->
  http_Get P w url = HttpOk resp ->
  DownloadFile P url dst w =
    (Ret ((dst ++ Body_bytes (Resp_Body resp))%string, Body_err (Resp_Body resp)),
     w, [CallHead url; CallGet url]).
Proof.
  intros Hhead Hlen Hget. rewrite (DownloadFile_probe_ok P w url dst head Hhead).
  destruct (ContentLength head >? 8 * 1024 * 1024) eqn:Hsize.
  - apply Z.gtb_lt in Hsize. lia.
  - rewrite Hget. reflexivity.
Qed.

(** X5. A request that fails, the probe or the download after an accepted
    probe, makes [DownloadFile] return that request's error with the sink as
    it was; after a failed probe no GET is made. *)
Theorem DownloadFile_transfer_failure (w : World P) url dst err :
  (exists resp, http_Head P w url = HttpErr resp err) \/
  (exists head resp,
      http_Head P w url = HttpOk head /\
      ContentLength head <= 8 * 1024 * 1024 /\
      http_Get P w url = HttpErr resp err) ->
  outcome_of (DownloadFile P url dst w) = Ret (dst, Some err) /\
  ((exists resp, http_Head P w url = HttpErr resp err) ->
   filter isGet (trace_of (DownloadFile P url dst w)) = []).
Proof.
  intros [[resp Hhead] | [head [resp [Hhead [Hlen Hget]]]]].
  - rewrite (DownloadFile_probe_err P w url dst resp err Hhead).
    split; [reflexivity | intros _; reflexivity].
  - rewrite (DownloadFile_probe_ok P w url dst head Hhead).
    destruct (ContentLength head >? 8 * 1024 * 1024) eqn:Hsize.
    + apply Z.gtb_lt in Hsize. lia.
    + rewrite Hget. split; [reflexivity|].
      intros [resp' Hhead']. congruence.
Qed.

End Fetching.

Lemma DownloadFile_copies_whole_body_witness :
  DownloadFile Sim.platform "http://cdn.example/a/short.txt" "" Cases.oddFiles =
    (Ret ("hello world"%string, None), Cases.oddFiles,
     [CallHead "http://cdn.example/a/short.txt";
      CallGet "http://cdn.example/a/short.txt"]).
Proof.
  apply (DownloadFile_copies_whole_body Sim.platform Cases.oddFiles
           "http://cdn.example/a/short.txt" "" Cases.understated Cases.understated).
  - reflexivity.
  - vm_compute. discriminate.
  - reflexivity.
Defined.

Lemma DownloadFile_transfer_failure_witness :
  outcome_of (DownloadFile Sim.platform "http://cdn.example/a/missing.png" "kept" Sim.base)
    = Ret ("kept"%string, Some "no such host"%string).
Proof.
  apply (DownloadFile_transfer_failure Sim.platform Sim.base
           "http://cdn.example/a/missing.png" "kept" "no such host").
  left. exists None. reflexivity.
Defined.

(** ** The outbound relay: the whole turn *)

Lemma fetchCall_no_bytes (t : list Call) :
  forallb fetchCall t = true -> filter isPrintlnBytes t = [].
Proof.
  induction t as [|c t IH]; [reflexivity|].
  cbn [forallb filter]. intros Hf. apply andb_prop in Hf. destruct Hf as [Hc Ht].
  rewrite (IH Ht). destruct c; try discriminate Hc; reflexivity.
Qed.

Section Turn.
Variable P : Platform.

Lemma attachmentPart_trace (w : World P) parts a :
  forallb fetchCall (trace_of (attachmentPart P parts a w)) = true /\
  filter isHead (trace_of (attachmentPart P parts a w))
    = [CallHead (Attachment_SourceURL a)].
Proof.
  destruct (DownloadFile_shape P w (Attachment_SourceURL a) "")
    as [written [err [t [Hrun Ht]]]].
  unfold attachmentPart, bind. cbn [Part_data]. rewrite Hrun.
  destruct err as [e|]; destruct Ht as [Ht | Ht]; subst t; split; reflexivity.
Qed.

Lemma attachments_trace (attachments : list Attachment) :
  forall (w : World P) parts,
    forallb fetchCall (trace_of (forRange attachments parts (attachmentPart P) w)) = true /\
    filter isHead (trace_of (forRange attachments parts (attachmentPart P) w))
      = map (fun a => CallHead (Attachment_SourceURL a)) attachments.
Proof.
  induction attachments as [|a rest IH]; intros w parts.
  - split; reflexivity.
  - destruct (attachmentPart_trace w parts a) as [Hf1 Hh1].
    destruct (attachmentPart_run P w parts a) as [t1 [Hrun1 _]].
    rewrite Hrun1 in Hf1, Hh1. cbn [trace_of snd] in Hf1, Hh1.
    destruct (IH w (parts ++ attachmentParts P w [a])) as [Hf2 Hh2].
    cbn [forRange]. unfold bind at 1 2. rewrite Hrun1.
    destruct (forRange rest (parts ++ attachmentParts P w [a]) (attachmentPart P) w)
      as [[o w2] t2].
    cbn [trace_of snd] in *. split.
    + rewrite forallb_app, Hf1, Hf2. reflexivity.
    + rewrite filter_app, Hh1, Hh2. reflexivity.
Qed.

(** The calls of the upload to a URL that parses, one by one. *)
Lemma postMessage_trace (w : World P) webhook msg :
  url_Parse P (webhookURL webhook) = None ->
  trace_of (postMessage P webhook msg w) =
    CallPrintln "Sending a message to the webhook" :: CallPrintln "Wrote JSON payload"
    :: trace_of (forRange (Message_Attachments (msg_Message msg))
                   [mkPart "payload_json" None
                      (json_Marshal P
                         {| Username := Author_Username (Message_Author (msg_Message msg));
                            AvatarURL := Author_AvatarURL (Message_Author (msg_Message msg));
                            Content := Message_Body (msg_Message msg) |})]
                   (attachmentPart P) w)
    ++ CallPrintln "Wrote attachments" :: CallPrintln "Sending the request"
    :: CallDo (uploadRequest P w webhook msg)
    :: match http_err (fst (Client_Do P w (uploadRequest P w webhook msg))) with
       | Some e => [CallPrintln e]
       | None => []
       end
    ++ CallPrintln "Got response"
    :: match http_resp (fst (Client_Do P w (uploadRequest P w webhook msg))) with
       | None => []
       | Some response =>
           if negb (StatusCode response =? 204) && negb (StatusCode response =? 200)
           then match Body_err (Resp_Body response) with
                | Some e => [CallPrintln e]
                | None => []
                end ++ [CallPrintlnBytes (Body_bytes (Resp_Body response))]
           else []
       end.
Proof.
  intros Hparse.
  destruct (attachments_run P (Message_Attachments (msg_Message msg)) w
              [mkPart "payload_json" None
                 (json_Marshal P
                    {| Username := Author_Username (Message_Author (msg_Message msg));
                       AvatarURL := Author_AvatarURL (Message_Author (msg_Message msg));
                       Content := Message_Body (msg_Message msg) |})])
    as [ta [Hatt _]].
  unfold postMessage, bind, Println, emit, act, http_NewRequest.
  rewrite Hparse, Hatt. cbn [printErr deref ret].
  cbn [app] in *. fold (uploadRequest P w webhook msg).
  destruct (Client_Do P w (uploadRequest P w webhook msg)) as [r w'].
  cbn [fst snd trace_of].
  destruct r as [resp | [resp|] err]; cbn [http_err http_resp printErr deref ret panic];
    unfold Println, emit.
  - destruct (negb (StatusCode resp =? 204) && negb (StatusCode resp =? 200)).
    + unfold ioutil_ReadAll. destruct (Body_err (Resp_Body resp)) as [e|];
        cbn; rewrite <- ?app_assoc; reflexivity.
    + cbn. rewrite <- ?app_assoc. reflexivity.
  - destruct (negb (StatusCode resp =? 204) && negb (StatusCode resp =? 200)).
    + unfold ioutil_ReadAll. destruct (Body_err (Resp_Body resp)) as [e|];
        cbn; rewrite <- ?app_assoc; reflexivity.
    + cbn. rewrite <- ?app_assoc. reflexivity.
  - cbn. rewrite <- ?app_assoc. reflexivity.
Qed.

Lemma resolveWebhook_no_fetch (w : World P) channelID :
  filter isHead (trace_of (resolveWebhook P channelID w)) = [] /\
  filter isPrintlnBytes (trace_of (resolveWebhook P channelID w)) = [].
Proof.
  destruct (lastRecognized (fst (ChannelWebhooks P w channelID))) as [hook|] eqn:Hlast.
  - rewrite (resolveWebhook_found _ _ _ _ Hlast). split; reflexivity.
  - destruct (fst (Channel_get P w channelID)) as [channel|] eqn:Hchan.
    + rewrite (resolveWebhook_create _ _ _ _ Hlast Hchan). split; reflexivity.
    + rewrite (resolveWebhook_no_channel _ _ _ Hlast Hchan). split; reflexivity.
Qed.

(** A turn whose resolution returns a webhook: the resolution, then the
    upload in the world the resolution left. *)
Lemma handleMessage_found (w w1 : World P) msg hook t0 :
  resolveWebhook P (TargetThreadID msg) w = (Ret (Some hook), w1, t0) ->
  handleMessage P msg w =
    (outcome_of (postMessage P hook msg w1), world_of (postMessage P hook msg w1),
     t0 ++ trace_of (postMessage P hook msg w1)).
Proof.
  intros Hres. rewrite handleMessage_run, Hres. reflexivity.
Qed.

End Turn.

Lemma unrecognized_all (hooks : list Webhook) (hook : Webhook) :
  existsb recognized hooks = false -> In hook hooks -> recognized hook = false.
Proof.
  intros Hex Hin. destruct (recognized hook) eqn:Hrec; [|reflexivity].
  assert (Htrue : existsb recognized hooks = true).
  { apply existsb_exists. exists hook. split; assumption. }
  congruence.
Qed.

Section Sending.
Variable P : Platform.

(** X6. A turn whose resolution returns a webhook, with a URL that parses,
    sends exactly one request:
    a POST to "https://discordapp.com/api/webhooks/<ID>/<Token>" whose body
    starts with the field [payload_json], holding the encoded user name,
    avatar and body of the message, and continues with one file part per
    attachment, in the order of the message, each with the base name of its
    source URL as field name and file name. *)
Theorem upload_body_layout (w w1 : World P) msg hook t0 :
  resolveWebhook P (TargetThreadID msg) w = (Ret (Some hook), w1, t0) ->
  url_Parse P (webhookURL hook) = None ->
  exists req,
    filter isDo (trace_of (handleMessage P msg w)) = [CallDo req] /\
    Req_Method req = "POST"%string /\
    Req_URL req =
      ("https://discordapp.com/api/webhooks/" ++ Webhook_ID hook ++ "/"
         ++ Webhook_Token hook)%string /\
    map Part_name (Req_Parts req) =
      "payload_json"%string
      :: map (fun a => path_Base (Attachment_SourceURL a))
           (Message_Attachments (msg_Message msg)) /\
    map Part_filename (Req_Parts req) =
      None :: map (fun a => Some (path_Base (Attachment_SourceURL a)))
                (Message_Attachments (msg_Message msg)) /\
    option_map Part_data (hd_error (Req_Parts req)) =
      Some (json_Marshal P
              {| Username := Author_Username (Message_Author (msg_Message msg));
                 AvatarURL := Author_AvatarURL (Message_Author (msg_Message msg));
                 Content := Message_Body (msg_Message msg) |}).
Proof.
  intros Hres Hparse. exists (uploadRequest P w1 hook msg).
  split; [|split; [reflexivity | split; [reflexivity|]]].
  - pose proof (resolveWebhook_no_Do P w (TargetThreadID msg)) as Hno.
    rewrite Hres in Hno. cbn [trace_of snd] in Hno.
    rewrite (handleMessage_found P w w1 msg hook t0 Hres). cbn [trace_of snd].
    destruct (postMessage_run P w1 hook msg Hparse) as [t1 [t2 [Htr [_ [Hq1 [Hq2 _]]]]]].
    fold (trace_of (postMessage P hook msg w1)). rewrite Htr.
    rewrite filter_app, Hno. apply filter_Do_around; assumption.
  - cbn [uploadRequest Req_Parts map Part_name Part_filename hd_error option_map Part_data].
    unfold attachmentParts. rewrite !map_map. cbn [Part_name Part_filename].
    repeat split; reflexivity.
Qed.

(** X7. In a turn whose resolution returns a webhook with a URL that parses,
    every attachment is probed exactly once, in the order
    of the message, and all downloads are over before the request is sent:
    no HEAD or GET follows the POST. *)
Theorem attachments_fetched_before_upload (w w1 : World P) msg hook t0 :
  resolveWebhook P (TargetThreadID msg) w = (Ret (Some hook), w1, t0) ->
  url_Parse P (webhookURL hook) = None ->
  exists before after req,
    trace_of (handleMessage P msg w) = before ++ CallDo req :: after /\
    filter isHead before =
      map (fun a => CallHead (Attachment_SourceURL a))
        (Message_Attachments (msg_Message msg)) /\
    filter isHead after = [] /\ filter isGet after = [].
Proof.
  intros Hres Hparse.
  destruct (resolveWebhook_no_fetch P w (TargetThreadID msg)) as [Hnh _].
  rewrite Hres in Hnh. cbn [trace_of snd] in Hnh.
  rewrite (handleMessage_found P w w1 msg hook t0 Hres). cbn [trace_of snd].
  fold (trace_of (postMessage P hook msg w1)).
  rewrite (postMessage_trace P w1 hook msg Hparse).
  destruct (attachments_trace P (Message_Attachments (msg_Message msg)) w1
              [mkPart "payload_json" None
                 (json_Marshal P
                    {| Username := Author_Username (Message_Author (msg_Message msg));
                       AvatarURL := Author_AvatarURL (Message_Author (msg_Message msg));
                       Content := Message_Body (msg_Message msg) |})])
    as [_ Hheads].
  set (ta := trace_of (forRange _ _ _ w1)) in *.
  exists (t0 ++ CallPrintln "Sending a message to the webhook"
             :: CallPrintln "Wrote JSON payload"
             :: ta ++ [CallPrintln "Wrote attachments"; CallPrintln "Sending the request"]).
  eexists _, (uploadRequest P w1 hook msg).
  split; [|split; [|split]].
  - rewrite <- !app_assoc. cbn [app]. rewrite <- !app_assoc. reflexivity.
  - rewrite filter_app, Hnh. cbn [app filter isHead].
    rewrite filter_app, Hheads. cbn. rewrite app_nil_r. reflexivity.
  - destruct (http_err _) as [e|]; destruct (http_resp _) as [response|]; cbn;
      try reflexivity;
      destruct (negb (StatusCode response =? 204) && negb (StatusCode response =? 200));
      try reflexivity;
      destruct (Body_err (Resp_Body response)); reflexivity.
  - destruct (http_err _) as [e|]; destruct (http_resp _) as [response|]; cbn;
      try reflexivity;
      destruct (negb (StatusCode response =? 204) && negb (StatusCode response =? 200));
      try reflexivity;
      destruct (Body_err (Resp_Body response)); reflexivity.
Qed.

(** X8. In a turn whose resolution returns a webhook with a URL that parses,
    a response to the POST, whatever its status code, lets the loop go on:
    the turn returns and the remaining messages are handled in the world the
    request left. *)
Theorem loop_continues_after_response (w w1 : World P) msg rest hook t0 response :
  resolveWebhook P (TargetThreadID msg) w = (Ret (Some hook), w1, t0) ->
  url_Parse P (webhookURL hook) = None ->
  http_resp (fst (Client_Do P w1 (uploadRequest P w1 hook msg))) = Some response ->
  outcome_of (handleMessage P msg w) = Ret tt /\
  outcome_of (handleMessages P (msg :: rest) w)
    = outcome_of (handleMessages P rest
                    (snd (Client_Do P w1 (uploadRequest P w1 hook msg)))) /\
  trace_of (handleMessages P (msg :: rest) w)
    = trace_of (handleMessage P msg w)
      ++ trace_of (handleMessages P rest
                     (snd (Client_Do P w1 (uploadRequest P w1 hook msg)))).
Proof.
  intros Hres Hparse Hresp. rewrite handleMessages_cons.
  rewrite (handleMessage_found P w w1 msg hook t0 Hres).
  destruct (postMessage_run P w1 hook msg Hparse) as [t1 [t2 [_ [Hw [_ [_ Hout]]]]]].
  rewrite Hresp in Hout. rewrite Hout, Hw. repeat split; reflexivity.
Qed.

(** X9. In a turn whose resolution returns a webhook with a URL that parses
    and whose POST gets a response, the body of the response is read and
    printed exactly when the status code is neither 200 nor 204. *)
Theorem response_body_printed (w w1 : World P) msg hook t0 response :
  resolveWebhook P (TargetThreadID msg) w = (Ret (Some hook), w1, t0) ->
  url_Parse P (webhookURL hook) = None ->
  http_resp (fst (Client_Do P w1 (uploadRequest P w1 hook msg))) = Some response ->
  filter isPrintlnBytes (trace_of (handleMessage P msg w)) =
    if (StatusCode response =? 200) || (StatusCode response =? 204)
    then []
    else [CallPrintlnBytes (Body_bytes (Resp_Body response))].
Proof.
  intros Hres Hparse Hresp.
  destruct (resolveWebhook_no_fetch P w (TargetThreadID msg)) as [_ Hnb].
  rewrite Hres in Hnb. cbn [trace_of snd] in Hnb.
  rewrite (handleMessage_found P w w1 msg hook t0 Hres). cbn [trace_of snd].
  fold (trace_of (postMessage P hook msg w1)).
  rewrite (postMessage_trace P w1 hook msg Hparse), Hresp.
  destruct (attachments_trace P (Message_Attachments (msg_Message msg)) w1
              [mkPart "payload_json" None
                 (json_Marshal P
                    {| Username := Author_Username (Message_Author (msg_Message msg));
                       AvatarURL := Author_AvatarURL (Message_Author (msg_Message msg));
                       Content := Message_Body (msg_Message msg) |})])
    as [Hfetch _].
  apply fetchCall_no_bytes in Hfetch.
  set (ta := trace_of (forRange _ _ _ w1)) in *.
  rewrite filter_app, Hnb. cbn [app filter isPrintlnBytes].
  rewrite filter_app, Hfetch. cbn [app filter isPrintlnBytes].
  assert (Herr : forall tail,
             filter isPrintlnBytes
               (match http_err (fst (Client_Do P w1 (uploadRequest P w1 hook msg))) with
                | Some e => [CallPrintln e]
                | None => []
                end ++ tail) = filter isPrintlnBytes tail).
  { intros tail. destruct (http_err _); reflexivity. }
  rewrite Herr. cbn [filter isPrintlnBytes].
  destruct (StatusCode response =? 200); destruct (StatusCode response =? 204);
    cbn [negb andb orb]; try reflexivity.
  destruct (Body_err (Resp_Body response)); reflexivity.
Qed.

End Sending.

Section Reuse.
Variable P : Platform.

Lemma handleMessage_found_summary (w w1 : World P) msg hook t0 :
  resolveWebhook P (TargetThreadID msg) w = (Ret (Some hook), w1, t0) ->
  url_Parse P (webhookURL hook) = None ->
  exists o t,
    handleMessage P msg w = (o, snd (Client_Do P w1 (uploadRequest P w1 hook msg)), t) /\
    o = match http_resp (fst (Client_Do P w1 (uploadRequest P w1 hook msg))) with
        | Some _ => Ret tt
        | None => Panic "invalid memory address or nil pointer dereference"
        end /\
    filter isDo t = [CallDo (uploadRequest P w1 hook msg)] /\
    filter isCreate t = filter isCreate t0.
Proof.
  intros Hres Hparse.
  pose proof (resolveWebhook_no_Do P w (TargetThreadID msg)) as Hno.
  rewrite Hres in Hno. cbn [trace_of snd] in Hno.
  rewrite (handleMessage_found P w w1 msg hook t0 Hres).
  destruct (postMessage_run P w1 hook msg Hparse) as [t1 [t2 [Htr [Hw [Hq1 [Hq2 Hout]]]]]].
  eexists _, _. split; [rewrite Hw; reflexivity|].
  split; [exact Hout|]. rewrite Htr. split.
  - rewrite filter_app, Hno. apply filter_Do_around; assumption.
  - rewrite !filter_app. cbn [filter isCreate].
    rewrite (quiet_no_Create _ Hq1), (quiet_no_Create _ Hq2), app_nil_r.
    reflexivity.
Qed.

(** X10. Two messages in a row for a channel without a recognised webhook:
    when the creation returns a webhook named with the prefix whose URL
    parses, the POST of
    the first message gets a response, and the listing then shows the new
    webhook beside the old ones, the second turn finds that webhook and
    posts through it; the two turns call [WebhookCreate] once in all. *)
Theorem created_webhook_reused (w w1 w2 : World P) m1 m2 channel hook err r response :
  TargetThreadID m2 = TargetThreadID m1 ->
  existsb recognized (fst (ChannelWebhooks P w (TargetThreadID m1))) = false ->
  fst (Channel_get P w (TargetThreadID m1)) = Some channel ->
  WebhookCreate P w (TargetThreadID m1) ("ChatPlug " ++ Channel_Name channel)%string
    "https://i.imgur.com/l2QP9Go.png" = (Some hook, err, w1) ->
  HasPrefix (Webhook_Name hook) "ChatPlug " = true ->
  url_Parse P (webhookURL hook) = None ->
  Client_Do P w1 (uploadRequest P w1 hook m1) = (r, w2) ->
  http_resp r = Some response ->
  (forall h, In h (fst (ChannelWebhooks P w2 (TargetThreadID m1))) <->
             h = hook \/ In h (fst (ChannelWebhooks P w (TargetThreadID m1)))) ->
  filter isCreate (trace_of (handleMessages P [m1; m2] w)) =
    [CallWebhookCreate (TargetThreadID m1) ("ChatPlug " ++ Channel_Name channel)%string
       "https://i.imgur.com/l2QP9Go.png"] /\
  filter isDo (trace_of (handleMessages P [m1; m2] w)) =
    [CallDo (uploadRequest P w1 hook m1); CallDo (uploadRequest P w2 hook m2)].
Proof.
  intros Hsame Hnone Hchan Hcreate Hname Hparse Hdo Hresp Hlist.
  assert (Hres1 : resolveWebhook P (TargetThreadID m1) w =
                    (Ret (Some hook), w1,
                     [CallChannelWebhooks (TargetThreadID m1);
                      CallChannel (TargetThreadID m1);
                      CallWebhookCreate (TargetThreadID m1)
                        ("ChatPlug " ++ Channel_Name channel)%string
                        "https://i.imgur.com/l2QP9Go.png"])).
  { rewrite (resolveWebhook_create P w _ channel (lastRecognized_none _ Hnone) Hchan).
    rewrite Hcreate. reflexivity. }
  assert (Hlast2 : lastRecognized (fst (ChannelWebhooks P w2 (TargetThreadID m1)))
                   = Some hook).
  { assert (Hex : existsb recognized (fst (ChannelWebhooks P w2 (TargetThreadID m1)))
                  = true).
    { apply existsb_exists. exists hook. split; [apply Hlist; left; reflexivity | exact Hname]. }
    destruct (lastRecognized_exists _ Hex) as [h Hh]. rewrite Hh. f_equal.
    destruct (lastRecognized_In _ _ Hh) as [Hin Hrec]. apply Hlist in Hin.
    destruct Hin as [Heq | Hold]; [exact Heq|].
    rewrite (unrecognized_all _ _ Hnone Hold) in Hrec. discriminate Hrec. }
  assert (Hres2 : resolveWebhook P (TargetThreadID m2) w2 =
                    (Ret (Some hook), w2, [CallChannelWebhooks (TargetThreadID m2)])).
  { rewrite Hsame. apply resolveWebhook_found. exact Hlast2. }
  destruct (handleMessage_found_summary w w1 m1 hook _ Hres1 Hparse)
    as [o1 [ta [Hrun1 [Ho1 [Hdo1 Hcr1]]]]].
  destruct (handleMessage_found_summary w2 w2 m2 hook _ Hres2 Hparse)
    as [o2 [tb [Hrun2 [_ [Hdo2 Hcr2]]]]].
  rewrite Hdo in Hrun1, Ho1. cbn [fst snd] in Hrun1, Ho1. rewrite Hresp in Ho1. subst o1.
  rewrite handleMessages_cons, Hrun1. cbn [trace_of snd].
  rewrite handleMessages_cons, Hrun2.
  assert (Hnil : forall w3 : World P, trace_of (handleMessages P [] w3) = []).
  { intros w3. reflexivity. }
  destruct o2 as [[]|s]; cbn [trace_of snd]; rewrite ?Hnil, ?app_nil_r;
    rewrite !filter_app, Hcr1, Hcr2, Hdo1, Hdo2; split; reflexivity.
Qed.

End Reuse.

Lemma upload_body_layout_witness :
  exists req,
    filter isDo
      (trace_of (handleMessage Sim.platform
                   (Sim.hubMessage "hi" [Sim.missing; Sim.cat]) Sim.oneBridgeHook))
      = [CallDo req] /\
    Req_Method req = "POST"%string /\
    Req_URL req = "https://discordapp.com/api/webhooks/501/tokA"%string /\
    map Part_name (Req_Parts req) = ["payload_json"; "missing.png"; "cat.png"]%string /\
    map Part_filename (Req_Parts req) =
      [None; Some "missing.png"%string; Some "cat.png"%string] /\
    option_map Part_data (hd_error (Req_Parts req)) =
      Some "{content:hi,username:carol,avatar_url:http://hub.example/carol.png}"%string.
Proof.
  apply (upload_body_layout Sim.platform Sim.oneBridgeHook Sim.oneBridgeHook
           (Sim.hubMessage "hi" [Sim.missing; Sim.cat]) Sim.hookA
           [CallChannelWebhooks "123"]).
  - reflexivity.
  - reflexivity.
Defined.

Lemma attachments_fetched_before_upload_witness :
  exists before after req,
    trace_of (handleMessage Sim.platform
                (Sim.hubMessage "hi" [Sim.missing; Sim.cat]) Sim.oneBridgeHook)
      = before ++ CallDo req :: after /\
    filter isHead before =
      [CallHead "http://cdn.example/a/missing.png"; CallHead "http://cdn.example/a/cat.png"] /\
    filter isHead after = [] /\ filter isGet after = [].
Proof.
  apply (attachments_fetched_before_upload Sim.platform Sim.oneBridgeHook Sim.oneBridgeHook
           (Sim.hubMessage "hi" [Sim.missing; Sim.cat]) Sim.hookA
           [CallChannelWebhooks "123"]).
  - reflexivity.
  - reflexivity.
Defined.

Lemma loop_continues_after_response_witness :
  outcome_of (handleMessage Sim.platform (Sim.hubMessage "hi" []) Cases.failingUpload)
    = Ret tt /\
  outcome_of (handleMessages Sim.platform
                [Sim.hubMessage "hi" []; Sim.hubMessage "yo" []] Cases.failingUpload)
    = outcome_of (handleMessages Sim.platform [Sim.hubMessage "yo" []] Cases.failingUpload) /\
  trace_of (handleMessages Sim.platform
              [Sim.hubMessage "hi" []; Sim.hubMessage "yo" []] Cases.failingUpload)
    = trace_of (handleMessage Sim.platform (Sim.hubMessage "hi" []) Cases.failingUpload)
      ++ trace_of (handleMessages Sim.platform [Sim.hubMessage "yo" []] Cases.failingUpload).
Proof.
  apply (loop_continues_after_response Sim.platform Cases.failingUpload Cases.failingUpload
           (Sim.hubMessage "hi" []) [Sim.hubMessage "yo" []] Sim.hookA
           [CallChannelWebhooks "123"] Cases.serverError).
  - reflexivity.
  - reflexivity.
  - reflexivity.
Defined.

Lemma response_body_printed_witness :
  filter isPrintlnBytes
    (trace_of (handleMessage Sim.platform (Sim.hubMessage "hi" []) Cases.failingUpload))
    = [CallPrintlnBytes "oops"].
Proof.
  apply (response_body_printed Sim.platform Cases.failingUpload Cases.failingUpload
           (Sim.hubMessage "hi" []) Sim.hookA [CallChannelWebhooks "123"]
           Cases.serverError).
  - reflexivity.
  - reflexivity.
  - reflexivity.
Defined.

Lemma created_webhook_reused_witness :
  filter isCreate
    (trace_of (handleMessages Sim.platform
                 [Sim.hubMessage "hi" []; Sim.hubMessage "yo" []] Sim.base)) =
    [CallWebhookCreate "123" "ChatPlug general-chat" "https://i.imgur.com/l2QP9Go.png"] /\
  filter isDo
    (trace_of (handleMessages Sim.platform
                 [Sim.hubMessage "hi" []; Sim.hubMessage "yo" []] Sim.base)) =
    [CallDo (uploadRequest Sim.platform
               (snd (Sim.create Sim.base "123" "ChatPlug general-chat"
                       "https://i.imgur.com/l2QP9Go.png"))
               (mkWebhook "hook-123" "ChatPlug general-chat" "secret")
               (Sim.hubMessage "hi" []));
     CallDo (uploadRequest Sim.platform
               (snd (Sim.create Sim.base "123" "ChatPlug general-chat"
                       "https://i.imgur.com/l2QP9Go.png"))
               (mkWebhook "hook-123" "ChatPlug general-chat" "secret")
               (Sim.hubMessage "yo" []))].
Proof.
  apply (created_webhook_reused Sim.platform Sim.base
           (snd (Sim.create Sim.base "123" "ChatPlug general-chat"
                   "https://i.imgur.com/l2QP9Go.png"))
           (snd (Sim.create Sim.base "123" "ChatPlug general-chat"
                   "https://i.imgur.com/l2QP9Go.png"))
           (Sim.hubMessage "hi" []) (Sim.hubMessage "yo" []) Sim.general
           (mkWebhook "hook-123" "ChatPlug general-chat" "secret") None
           (HttpOk Sim.noContent) Sim.noContent).
  - reflexivity.
  - reflexivity.
  - reflexivity.
  - reflexivity.
  - reflexivity.
  - reflexivity.
  - reflexivity.
  - reflexivity.
  - intros h. cbn. split.
    + intros [Hh | [Hh | []]]; [right; left; exact Hh | left; symmetry; exact Hh].
    + intros [Hh | [Hh | []]]; [right; left; symmetry; exact Hh | left; exact Hh].
Defined.

(** ** The search responder: completeness, the empty query, the loop *)

Lemma Contains_empty (s : string) : Contains s "" = true.
Proof.
  destruct s; reflexivity.
Qed.

Section Searching.
Variable P : Platform.

Lemma Startup_searchRequest_run (w : World P) (query : string) :
  Startup_searchRequest P query w =
    (Ret tt, w,
     map (fun guild => CallGuildChannels (Guild_ID guild)) (State_Guilds P w)
       ++ [CallSetSearchResponse query (firstn 30 (searchCandidates P w query))]).
Proof.
  unfold Startup_searchRequest. unfold bind at 1. unfold gets.
  unfold bind at 1. rewrite search_guilds_run. reflexivity.
Qed.

(** X11. When at most 30 channels match, none is left out: every text
    channel of a known guild whose name, or whose guild's name, contains the
    query is in the response, with its composite name, the icon URL of its
    guild and its own ID. *)
Theorem search_finds_every_match (w : World P) (query : string) guild channel :
  (length (searchCandidates P w query) <= 30)%nat ->
  In guild (State_Guilds P w) ->
  In channel (fst (GuildChannels P w (Guild_ID guild))) ->
  Channel_Type channel = ChannelTypeGuildText ->
  (exists before after, Channel_Name channel = (before ++ query ++ after)%string) \/
  (exists before after, Guild_Name guild = (before ++ query ++ after)%string) ->
  exists results,
    In (CallSetSearchResponse query results) (trace_of (Startup_searchRequest P query w)) /\
    In {| SearchThreadInput_Name :=
            (Guild_Name guild ++ " - " ++ Channel_Name channel)%string;
          SearchThreadInput_IconURL :=
            ("http://cdn.discordapp.com/icons/" ++ Guild_ID guild ++ "/"
               ++ Guild_Icon guild ++ ".png")%string;
          SearchThreadInput_OriginID := Channel_ID channel |} results.
Proof.
  intros Hcap Hguild Hchan Htype Hsub.
  exists (firstn 30 (searchCandidates P w query)).
  rewrite Startup_searchRequest_run. cbn [trace_of snd]. split.
  - apply in_or_app. right. left. reflexivity.
  - rewrite (firstn_all2 _ Hcap). unfold searchCandidates.
    apply in_flat_map. exists guild. split; [exact Hguild|].
    apply in_map_iff. exists channel. split; [reflexivity|].
    apply filter_In. split; [exact Hchan|].
    unfold searchMatches. apply andb_true_intro. split.
    + apply orb_true_intro.
      destruct Hsub as [Hsub | Hsub]; apply Contains_substring in Hsub; auto.
    + apply Z.eqb_eq. exact Htype.
Qed.

(** X12. The empty query matches every name: the response is the first 30
    text channels of the known guilds. *)
Theorem empty_query_lists_text_channels (w : World P) :
  Startup_searchRequest P "" w =
    (Ret tt, w,
     map (fun guild => CallGuildChannels (Guild_ID guild)) (State_Guilds P w)
       ++ [CallSetSearchResponse ""
             (firstn 30
                (flat_map
                   (fun guild =>
                      map (searchResult guild)
                        (filter isTextChannel (fst (GuildChannels P w (Guild_ID guild)))))
                   (State_Guilds P w)))]).
Proof.
  rewrite Startup_searchRequest_run. do 5 f_equal. unfold searchCandidates.
  apply flat_map_ext. intros guild. f_equal. apply filter_ext. intros channel.
  unfold searchMatches, isTextChannel. rewrite Contains_empty. reflexivity.
Qed.

(** X13. The search loop answers every request once, in the order of the
    requests, each with the first 30 of the channels its query selects, and
    leaves the platform as it was. *)
Theorem search_loop_answers_each_query (queries : list string) :
  forall w : World P,
    outcome_of (Startup_searchLoop P queries w) = Ret tt /\
    world_of (Startup_searchLoop P queries w) = w /\
    filter isSetSearchResponse (trace_of (Startup_searchLoop P queries w)) =
      map (fun query =>
             CallSetSearchResponse query (firstn 30 (searchCandidates P w query)))
          queries.
Proof.
  unfold Startup_searchLoop.
  induction queries as [|query rest IH]; intros w.
  - repeat split; reflexivity.
  - destruct (IH w) as [Hout [Hworld Htrace]].
    cbn [forRange]. unfold bind. rewrite Startup_searchRequest_run.
    destruct (forRange rest tt (fun _ q => Startup_searchRequest P q) w)
      as [[o w2] t2].
    cbn [outcome_of world_of trace_of fst snd] in *. subst o w2.
    repeat split. rewrite !filter_app, Htrace. cbn [map filter isSetSearchResponse app].
    + assert (Hquiet : forall gs : list Guild,
                 filter isSetSearchResponse
                   (map (fun guild => CallGuildChannels (Guild_ID guild)) gs) = []).
      { induction gs as [|g gs IHg]; [reflexivity | exact IHg]. }
      rewrite Hquiet. reflexivity.
Qed.

End Searching.

Lemma search_finds_every_match_witness :
  exists results,
    In (CallSetSearchResponse "Test" results)
       (trace_of (Startup_searchRequest Sim.platform "Test" Sim.base)) /\
    In {| SearchThreadInput_Name := "Test Guild - general-chat";
          SearchThreadInput_IconURL := "http://cdn.discordapp.com/icons/1/ic.png";
          SearchThreadInput_OriginID := "123" |} results.
Proof.
  apply (search_finds_every_match Sim.platform Sim.base "Test" Sim.testGuild Sim.general).
  - vm_compute. lia.
  - left. reflexivity.
  - left. reflexivity.
  - reflexivity.
  - right. exists ""%string, " Guild"%string. reflexivity.
Defined.

(** ** Configuration and start-up *)

Lemma lastBotToken_snoc (conf : list ConfigurationFieldResult) field :
  lastBotToken (conf ++ [field]) =
    if String.eqb (Result_Name field) "botToken"
    then Result_Value field else lastBotToken conf.
Proof.
  unfold lastBotToken. rewrite rev_app_distr. cbn [rev app find].
  destruct (String.eqb (Result_Name field) "botToken"); reflexivity.
Qed.

Lemma confStruct_lastBotToken (conf : list ConfigurationFieldResult) :
  SaveConfiguration_confStruct conf = {| BotToken := lastBotToken conf |}.
Proof.
  unfold SaveConfiguration_confStruct.
  induction conf as [|field conf IH] using rev_ind.
  - reflexivity.
  - rewrite fold_left_app, lastBotToken_snoc. cbn [fold_left].
    destruct (String.eqb (Result_Name field) "botToken"); [reflexivity | exact IH].
Qed.

Section Bootstrap.
Variable H : Host.

(** X14. [SaveConfiguration] writes one file, the configuration path of the
    instance, holding the record whose token is the value of the last
    submitted field named [botToken]; fields with other names are ignored
    and without such a field the token written is empty. *)
Theorem SaveConfiguration_keeps_last_token (conf : list ConfigurationFieldResult)
    (d : Disk H) :
  SaveConfiguration H conf d =
    snd (ioutil_WriteFile H d
           ("config." ++ os_Getenv H "INSTANCE_ID" ++ ".json")%string
           (json_MarshalIndent H {| BotToken := lastBotToken conf |})).
Proof.
  unfold SaveConfiguration. rewrite confStruct_lastBotToken. reflexivity.
Qed.

(** X15. On a disk that gives back what was written and with a JSON coding
    that decodes what it encoded, a configuration saved without a write
    error is the one [GetConfiguration] then returns: its token is the last
    submitted [botToken]. *)
Theorem saved_configuration_read_back (conf : list ConfigurationFieldResult)
    (d : Disk H) :
  (forall d0 path data d1,
      ioutil_WriteFile H d0 path data = (None, d1) ->
      ioutil_ReadFile H d1 path = inl data) ->
  (forall c, json_Unmarshal H (json_MarshalIndent H c) = inl c) ->
  (forall data, fst (ioutil_WriteFile H d (configPath H) data) = None) ->
  GetConfiguration H (SaveConfiguration H conf d) = inl {| BotToken := lastBotToken conf |}.
Proof.
  intros Hdisk Hjson Hwrite. unfold GetConfiguration, SaveConfiguration.
  rewrite confStruct_lastBotToken.
  set (file := json_MarshalIndent H {| BotToken := lastBotToken conf |}).
  specialize (Hwrite file).
  destruct (ioutil_WriteFile H d (configPath H) file) as [e d1] eqn:Hw.
  cbn [fst snd] in *. subst e.
  rewrite (Hdisk _ _ _ _ Hw). unfold file. rewrite Hjson. reflexivity.
Qed.

(** X16. With a configuration file that [os.Stat] finds and that reads and
    decodes, [Startup] does not ask the hub for a configuration: it
    publishes no schema, leaves the disk untouched, ignores whatever the hub
    would submit and opens the Discord session under "Bot " followed by the
    stored token. *)
Theorem configured_start_skips_bootstrap (received : list ConfigurationFieldResult)
    (d : Disk H) (file : string) (c : DiscordServiceConfiguration) :
  os_Stat H d (configPath H) = None ->
  ioutil_ReadFile H d (configPath H) = inl file ->
  json_Unmarshal H file = inl c ->
  Startup_boot H received d =
    (Serving ("Bot " ++ BotToken c)%string, d,
     [CallNewChatPlugClient (os_Getenv H "WS_ENDPOINT") (os_Getenv H "HTTP_ENDPOINT")
        (os_Getenv H "ACCESS_TOKEN");
      CallConnect; CallSubscribeToNewMessages;
      CallDiscordNew ("Bot " ++ BotToken c)%string;
      CallAddHandler; CallOpen; CallSubscribeToSearchRequests]).
Proof.
  intros Hstat Hread Hjson. unfold Startup_boot, IsConfigured. rewrite Hstat.
  cbn [negb]. unfold GetConfiguration. rewrite Hread, Hjson. reflexivity.
Qed.

(** X17. On a first run, with a disk and a JSON coding as in X15 and a write
    that succeeds, [Startup] publishes the schema of one required, masked
    STRING field named [botToken], waits for the answer, saves it, and opens
    the Discord session under "Bot " followed by the submitted token. *)
Theorem first_run_uses_submitted_token (received : list ConfigurationFieldResult)
    (d : Disk H) :
  IsConfigured H d = false ->
  (forall d0 path data d1,
      ioutil_WriteFile H d0 path data = (None, d1) ->
      ioutil_ReadFile H d1 path = inl data) ->
  (forall c, json_Unmarshal H (json_MarshalIndent H c) = inl c) ->
  (forall data, fst (ioutil_WriteFile H d (configPath H) data) = None) ->
  Startup_boot H received d =
    (Serving ("Bot " ++ lastBotToken received)%string, SaveConfiguration H received d,
     [CallNewChatPlugClient (os_Getenv H "WS_ENDPOINT") (os_Getenv H "HTTP_ENDPOINT")
        (os_Getenv H "ACCESS_TOKEN");
      CallConnect; CallSubscribeToNewMessages;
      CallSubscribeToConfigResponses
        [mkConfigurationField "STRING" "botToken" "Your Discord bot token" "" false true];
      CallReceiveConfiguration;
      CallDiscordNew ("Bot " ++ lastBotToken received)%string;
      CallAddHandler; CallOpen; CallSubscribeToSearchRequests]).
Proof.
  intros Hconf Hdisk Hjson Hwrite. unfold Startup_boot. rewrite Hconf. cbn [negb].
  unfold GetConfiguration, SaveConfiguration. rewrite confStruct_lastBotToken.
  set (file := json_MarshalIndent H {| BotToken := lastBotToken received |}).
  specialize (Hwrite file).
  destruct (ioutil_WriteFile H d (configPath H) file) as [e d1] eqn:Hw.
  cbn [fst snd] in *. subst e.
  rewrite (Hdisk _ _ _ _ Hw). unfold file. rewrite Hjson. reflexivity.
Qed.

(** X18. [SaveConfiguration] drops the error of the write.  On a first run
    whose write fails and leaves the disk as it was, [Startup] has asked for
    the configuration and received it, then fails to read it back and leaves
    through [log.Fatal]: the submitted token is lost and no Discord session
    is opened. *)
Theorem failed_write_is_fatal_at_read (received : list ConfigurationFieldResult)
    (d : Disk H) (writeErr readErr : error) :
  IsConfigured H d = false ->
  (forall data, ioutil_WriteFile H d (configPath H) data = (Some writeErr, d)) ->
  ioutil_ReadFile H d (configPath H) = inr readErr ->
  Startup_boot H received d =
    (Exited readErr, d,
     [CallNewChatPlugClient (os_Getenv H "WS_ENDPOINT") (os_Getenv H "HTTP_ENDPOINT")
        (os_Getenv H "ACCESS_TOKEN");
      CallConnect; CallSubscribeToNewMessages;
      CallSubscribeToConfigResponses (GetConfigurationSchema);
      CallReceiveConfiguration;
      CallFatal readErr]).
Proof.
  intros Hconf Hwrite Hread. unfold Startup_boot. rewrite Hconf. cbn [negb].
  unfold SaveConfiguration. rewrite Hwrite. cbn [snd].
  unfold GetConfiguration. rewrite Hread. reflexivity.
Qed.

(** X19. [IsConfigured] is false only for the not-exist error of [os.Stat].
    When [os.Stat] fails in another way and the file cannot be read,
    [Startup] takes the instance for configured: it never asks the hub for a
    configuration and leaves through [log.Fatal] with the read error. *)
Theorem unreadable_configuration_is_fatal (received : list ConfigurationFieldResult)
    (d : Disk H) (statErr readErr : error) :
  os_Stat H d (configPath H) = Some statErr ->
  os_IsNotExist H statErr = false ->
  ioutil_ReadFile H d (configPath H) = inr readErr ->
  IsConfigured H d = true /\
  Startup_boot H received d =
    (Exited readErr, d,
     [CallNewChatPlugClient (os_Getenv H "WS_ENDPOINT") (os_Getenv H "HTTP_ENDPOINT")
        (os_Getenv H "ACCESS_TOKEN");
      CallConnect; CallSubscribeToNewMessages;
      CallFatal readErr]).
Proof.
  intros Hstat Hkind Hread.
  assert (Hconf : IsConfigured H d = true).
  { unfold IsConfigured. rewrite Hstat, Hkind. reflexivity. }
  split; [exact Hconf|].
  unfold Startup_boot. rewrite Hconf. cbn [negb].
  unfold GetConfiguration. rewrite Hread. reflexivity.
Qed.

End Bootstrap.

Lemma substring_whole (s : string) : String.substring 0 (String.length s) s = s.
Proof.
  induction s as [|c s IH]; cbn; [reflexivity | rewrite IH; reflexivity].
Qed.

Lemma SimHost_write_read (d0 : SimHost.State) path data d1 :
  SimHost.write d0 path data = (None, d1) -> SimHost.read d1 path = inl data.
Proof.
  unfold SimHost.write, SimHost.read.
  destruct (SimHost.denied d0) eqn:Hden; [discriminate|].
  destruct (SimHost.readOnly d0); [discriminate|].
  intros Heq. injection Heq as Heq. subst d1.
  unfold SimHost.lookup. cbn [SimHost.denied SimHost.entries find fst snd].
  rewrite String.eqb_refl. reflexivity.
Qed.

Lemma SimHost_json (c : DiscordServiceConfiguration) :
  SimHost.unmarshal (SimHost.marshal c) = inl c.
Proof.
  destruct c as [token]. unfold SimHost.unmarshal, SimHost.marshal. cbn [BotToken].
  assert (Hpre : String.prefix "botToken=" ("botToken=" ++ token)%string = true).
  { apply prefix_app. exists token. reflexivity. }
  rewrite Hpre. do 2 f_equal. cbn. rewrite Nat.sub_0_r. apply substring_whole.
Qed.

Lemma saved_configuration_read_back_witness :
  GetConfiguration SimHost.host (SaveConfiguration SimHost.host SimHost.answers SimHost.fresh)
    = inl {| BotToken := "xyz" |}.
Proof.
  apply (saved_configuration_read_back SimHost.host SimHost.answers SimHost.fresh).
  - exact SimHost_write_read.
  - exact SimHost_json.
  - intros data. reflexivity.
Defined.

Lemma configured_start_skips_bootstrap_witness :
  Startup_boot SimHost.host SimHost.answers SimHost.configured =
    (Serving "Bot abc", SimHost.configured,
     [CallNewChatPlugClient "ws://hub.example/query" "http://hub.example/query" "hub-secret";
      CallConnect; CallSubscribeToNewMessages;
      CallDiscordNew "Bot abc";
      CallAddHandler; CallOpen; CallSubscribeToSearchRequests]).
Proof.
  apply (configured_start_skips_bootstrap SimHost.host SimHost.answers SimHost.configured
           "botToken=abc" {| BotToken := "abc" |}).
  - reflexivity.
  - reflexivity.
  - reflexivity.
Defined.

Lemma first_run_uses_submitted_token_witness :
  Startup_boot SimHost.host SimHost.answers SimHost.fresh =
    (Serving "Bot xyz", SaveConfiguration SimHost.host SimHost.answers SimHost.fresh,
     [CallNewChatPlugClient "ws://hub.example/query" "http://hub.example/query" "hub-secret";
      CallConnect; CallSubscribeToNewMessages;
      CallSubscribeToConfigResponses
        [mkConfigurationField "STRING" "botToken" "Your Discord bot token" "" false true];
      CallReceiveConfiguration;
      CallDiscordNew "Bot xyz";
      CallAddHandler; CallOpen; CallSubscribeToSearchRequests]).
Proof.
  apply (first_run_uses_submitted_token SimHost.host SimHost.answers SimHost.fresh).
  - reflexivity.
  - exact SimHost_write_read.
  - exact SimHost_json.
  - intros data. reflexivity.
Defined.

Lemma failed_write_is_fatal_at_read_witness :
  Startup_boot SimHost.host SimHost.answers SimHost.frozen =
    (Exited "no such file or directory", SimHost.frozen,
     [CallNewChatPlugClient "ws://hub.example/query" "http://hub.example/query" "hub-secret";
      CallConnect; CallSubscribeToNewMessages;
      CallSubscribeToConfigResponses GetConfigurationSchema;
      CallReceiveConfiguration;
      CallFatal "no such file or directory"]).
Proof.
  apply (failed_write_is_fatal_at_read SimHost.host SimHost.answers SimHost.frozen
           "read-only file system" "no such file or directory").
  - reflexivity.
  - intros data. reflexivity.
  - reflexivity.
Defined.

Lemma unreadable_configuration_is_fatal_witness :
  IsConfigured SimHost.host SimHost.locked = true /\
  Startup_boot SimHost.host SimHost.answers SimHost.locked =
    (Exited "permission denied", SimHost.locked,
     [CallNewChatPlugClient "ws://hub.example/query" "http://hub.example/query" "hub-secret";
      CallConnect; CallSubscribeToNewMessages;
      CallFatal "permission denied"]).
Proof.
  apply (unreadable_configuration_is_fatal SimHost.host SimHost.answers SimHost.locked
           "permission denied" "permission denied").
  - reflexivity.
  - reflexivity.
  - reflexivity.
Defined.

(** ** A webhook URL that does not parse *)

Section Unparsable.
Variable P : Platform.

(** When [http.NewRequest] rejects the URL of the resolved webhook, the turn
    prints the error, sends no request and panics at line 103; the messages
    still waiting are never taken. *)
Lemma unparsable_url_panics (w w1 : World P) msg rest hook t0 err :
  resolveWebhook P (TargetThreadID msg) w = (Ret (Some hook), w1, t0) ->
  url_Parse P (webhookURL hook) = Some err ->
  outcome_of (handleMessages P (msg :: rest) w)
    = Panic "invalid memory address or nil pointer dereference" /\
  filter isDo (trace_of (handleMessages P (msg :: rest) w)) = [] /\
  In (CallPrintln err) (trace_of (handleMessages P (msg :: rest) w)).
Proof.
  intros Hres Hparse.
  pose proof (resolveWebhook_no_Do P w (TargetThreadID msg)) as Hno.
  rewrite Hres in Hno. cbn [trace_of snd] in Hno.
  rewrite handleMessages_cons, (handleMessage_found P w w1 msg hook t0 Hres).
  destruct (attachments_run P (Message_Attachments (msg_Message msg)) w1
              [mkPart "payload_json" None
                 (json_Marshal P
                    {| Username := Author_Username (Message_Author (msg_Message msg));
                       AvatarURL := Author_AvatarURL (Message_Author (msg_Message msg));
                       Content := Message_Body (msg_Message msg) |})])
    as [ta [Hatt Hqa]].
  assert (Hrun : postMessage P hook msg w1 =
                   (Panic "invalid memory address or nil pointer dereference", w1,
                    CallPrintln "Sending a message to the webhook"
                    :: CallPrintln "Wrote JSON payload"
                    :: ta ++ [CallPrintln "Wrote attachments"; CallPrintln err])).
  { unfold postMessage, bind, Println, emit, act, http_NewRequest.
    rewrite Hparse, Hatt. cbn [printErr deref panic]. unfold Println, emit.
    cbn [app]. rewrite <- ?app_assoc. reflexivity. }
  rewrite Hrun. cbn [outcome_of world_of trace_of fst snd].
  split; [reflexivity | split].
  - rewrite filter_app, Hno. cbn [app filter isDo].
    rewrite filter_app, (quiet_no_Do _ Hqa). reflexivity.
  - apply in_or_app. right. right. right. apply in_or_app. right. right. left.
    reflexivity.
Qed.

End Unparsable.

(** The listing holds a webhook whose token is [tok%zz]. *)
Example unparsable_token :
  handleMessages Sim.platform [Sim.hubMessage "hi" []; Sim.hubMessage "yo" []]
    Cases.badToken =
    (Panic "invalid memory address or nil pointer dereference", Cases.badToken,
     [CallChannelWebhooks "123";
      CallPrintln "Sending a message to the webhook";
      CallPrintln "Wrote JSON payload";
      CallPrintln "Wrote attachments";
      CallPrintln
        "parse https://discordapp.com/api/webhooks/504/tok%zz: invalid URL escape %zz"]).
Proof. reflexivity. Qed.
